(** * cpf-cnpj-validator: a shallow embedding of the CPF and CNPJ engines

    The TypeScript sources embedded here are

    - the CPF module ([generate], [isValid], [cleanCPF], [isValidFormat],
      [generateBaseCPF], [calculateCheckDigit], [format]);
    - [src/cnpj/numeric.ts] (the legacy all-digit CNPJ);
    - [src/cnpj/alfanumeric.ts] (the alphanumeric CNPJ);
    - the CNPJ dispatcher ([generate], [isValid], [format], [isNumeric],
      [isAlfanumeric]).

    JavaScript values are modelled as follows.  A [number] is either [NaN]
    or an integer ([Num z]); every number the engines compute is a small
    non-negative integer, so the arithmetic of doubles is exact on them.
    A string is a list of characters ([list ascii], one character per
    code unit below 256); the regular expressions of the sources classify
    characters by ASCII ranges only, so that any other character behaves
    as punctuation does.
    [Math.random] is a stream of rationals of the unit interval that is
    threaded through the generators by a small state monad. *)

From Stdlib Require Import ZArith QArith Qround List Ascii String Bool Lia.
From Stdlib Require Import DecimalString.
From stdpp Require Import gmap strings.
Import ListNotations.

Open Scope Z_scope.

(** ** JavaScript values and built-ins *)

Module JS.

(** Strings, as lists of characters. *)
Definition str := list ascii.

(** A string literal. *)
Definition lit (s : string) : str := list_ascii_of_string s.

(** Numbers: [NaN], or an integer. *)
Inductive num : Type :=
| NaN
| Num (z : Z).

Definition add (a b : num) : num :=
  match a, b with
  | Num x, Num y => Num (x + y)
  | _, _ => NaN
  end.

Definition sub (a b : num) : num :=
  match a, b with
  | Num x, Num y => Num (x - y)
  | _, _ => NaN
  end.

Definition mul (a b : num) : num :=
  match a, b with
  | Num x, Num y => Num (x * y)
  | _, _ => NaN
  end.

(** [a % b]: the sign follows the dividend; [NaN] when [b] is zero. *)
Definition rem (a b : num) : num :=
  match a, b with
  | Num x, Num y => if y =? 0 then NaN else Num (Z.rem x y)
  | _, _ => NaN
  end.

(** [a < b]: false as soon as one side is [NaN]. *)
Definition lt (a b : num) : bool :=
  match a, b with
  | Num x, Num y => x <? y
  | _, _ => false
  end.

(** [a === b] on numbers: [NaN] is equal to nothing, itself included. *)
Definition strict_eq (a b : num) : bool :=
  match a, b with
  | Num x, Num y => x =? y
  | _, _ => false
  end.

(** [a === arr[i]]: reading past the end of an array yields
    [undefined], which is strictly equal to no number. *)
Definition strict_eq_at (a : num) (b : option num) : bool :=
  match b with
  | Some y => strict_eq a y
  | None => false
  end.

(** [isNaN(a)]. *)
Definition isNaN (a : num) : bool :=
  match a with
  | NaN => true
  | Num _ => false
  end.

(** [v || 0] where [v] is the result of a property lookup: [undefined],
    [NaN] and [0] are falsy. *)
Definition or_zero (v : option num) : num :=
  match v with
  | Some (Num z) => if z =? 0 then Num 0 else Num z
  | Some NaN => Num 0
  | None => Num 0
  end.

Definition code (c : ascii) : N := N_of_ascii c.

(** The class [\d] (equally [[0-9]]). *)
Definition is_digit (c : ascii) : bool :=
  ((48 <=? code c) && (code c <=? 57))%N.

Definition is_upper (c : ascii) : bool :=
  ((65 <=? code c) && (code c <=? 90))%N.

Definition is_lower (c : ascii) : bool :=
  ((97 <=? code c) && (code c <=? 122))%N.

(** The class [[a-zA-Z0-9]]. *)
Definition is_alnum (c : ascii) : bool :=
  is_lower c || is_upper c || is_digit c.

(** Line terminators, which [.] does not match. *)
Definition is_line_terminator (c : ascii) : bool :=
  ((code c =? 10) || (code c =? 13))%N.

(** White space and line terminators, as skipped by [Number] and
    [parseInt]: TAB, LF, VT, FF, CR, SP and NBSP. *)
Definition is_space (c : ascii) : bool :=
  (((9 <=? code c) && (code c <=? 13)) || (code c =? 32) || (code c =? 160))%N.

Definition digit_value (c : ascii) : Z := Z.of_N (code c) - 48.

(** [Number(s)] for a string [s] of exactly one character, which is
    what [split("")] and [Array.from] hand to it: a digit is its value,
    a blank is [0], anything else is [NaN]. *)
Definition Number_char (c : ascii) : num :=
  if is_digit c then Num (digit_value c)
  else if is_space c then Num 0
  else NaN.

(** [String(n)], as used by [join("")] and template literals. *)
Definition toString (n : num) : str :=
  match n with
  | NaN => lit "NaN"
  | Num z => list_ascii_of_string (NilZero.string_of_int (Z.to_int z))
  end.

(** The value of a character as a digit in radix 10 or 16. *)
Definition radix_digit (radix : Z) (c : ascii) : option Z :=
  if is_digit c then Some (digit_value c)
  else if (radix =? 16) && ((97 <=? code c) && (code c <=? 102))%N
       then Some (Z.of_N (code c) - 87)
  else if (radix =? 16) && ((65 <=? code c) && (code c <=? 70))%N
       then Some (Z.of_N (code c) - 55)
  else None.

(** The longest prefix of digits of [s], folded into [acc]; the boolean
    tells whether at least one digit was read. *)
Fixpoint parse_digits (radix : Z) (s : str) (acc : Z) (seen : bool) : Z * bool :=
  match s with
  | [] => (acc, seen)
  | c :: t =>
      match radix_digit radix c with
      | Some d => parse_digits radix t (acc * radix + d) true
      | None => (acc, seen)
      end
  end.

Fixpoint trim_start (s : str) : str :=
  match s with
  | c :: t => if is_space c then trim_start t else s
  | [] => []
  end.

(** [parseInt(s)] with no radix argument: leading blanks are skipped, a
    sign is read, the prefix [0x] or [0X] selects radix 16, and the
    longest prefix of digits is the result; [NaN] when there is none. *)
Definition parseInt (s : str) : num :=
  let s1 := trim_start s in
  let '(sign, s2) :=
    match s1 with
    | c :: t =>
        if Ascii.eqb c "-" then (-1, t)
        else if Ascii.eqb c "+" then (1, t)
        else (1, s1)
    | [] => (1, s1)
    end in
  let '(radix, s3) :=
    match s2 with
    | c0 :: c1 :: t =>
        if Ascii.eqb c0 "0" && (Ascii.eqb c1 "x" || Ascii.eqb c1 "X")
        then (16, t) else (10, s2)
    | _ => (10, s2)
    end in
  match parse_digits radix s3 0 false with
  | (v, true) => Num (sign * v)
  | (_, false) => NaN
  end.

(** [a === b] (and the negation of [a !== b]) on strings. *)
Fixpoint str_eqb (a b : str) : bool :=
  match a, b with
  | [], [] => true
  | x :: a', y :: b' => Ascii.eqb x y && str_eqb a' b'
  | _, _ => false
  end.

(** [arr.join("")] on an array of numbers. *)
Definition join (l : list num) : str := concat (map toString l).

(** The truth value of an optional boolean ([options?.formatted]):
    [undefined] is falsy. *)
Definition truthy (b : option bool) : bool :=
  match b with
  | Some true => true
  | _ => false
  end.

(** [s.charAt(i)]: the empty string when [i] is out of range. *)
Definition charAt (s : str) (i : num) : str :=
  match i with
  | Num z => if (0 <=? z) && (z <? Z.of_nat (length s))
             then firstn 1 (skipn (Z.to_nat z) s) else []
  | NaN => firstn 1 s
  end.

(** [s.slice(0, n)]. *)
Definition slice_to {A : Type} (n : nat) (s : list A) : list A := firstn n s.

(** [s.slice(-n)]: the last [n] elements, all of [s] when it is shorter. *)
Definition slice_last {A : Type} (n : nat) (s : list A) : list A :=
  skipn (length s - n) s.

(** [arr.reduce((acc, x, index) => f acc x index, init)]. *)
Fixpoint reduce_from {A B : Type} (f : B -> A -> nat -> B)
         (index : nat) (l : list A) (acc : B) : B :=
  match l with
  | [] => acc
  | x :: t => reduce_from f (S index) t (f acc x index)
  end.

Definition reduce {A B : Type} (f : B -> A -> nat -> B) (l : list A) (init : B) : B :=
  reduce_from f 0 l init.

(** [/^(\d)\1+$/.test(s)]: a digit followed by one or more copies of
    itself, up to the end of the string. *)
Definition test_repeated_digit (s : str) : bool :=
  match s with
  | c :: (_ :: _) as t => is_digit c && forallb (Ascii.eqb c) t
  | _ => false
  end.

End JS.

Import JS.

(** ** The source of randomness *)

Module Rand.

(** The successive results of [Math.random()]. *)
Definition rng := nat -> Q.

(** Every draw lies in the unit interval, one excluded. *)
Definition unit_draws (g : rng) : Prop :=
  forall n, (0 <= g n)%Q /\ (g n < 1)%Q.

(** Computations that draw random numbers. *)
Definition M (A : Type) : Type := rng -> A * rng.

Definition ret {A : Type} (a : A) : M A := fun g => (a, g).

Definition bind {A B : Type} (m : M A) (k : A -> M B) : M B :=
  fun g => let '(a, g') := m g in k a g'.

(** [Math.random()]. *)
Definition random : M Q := fun g => (g 0%nat, fun n => g (S n)).

(** [Math.floor(Math.random() * k)].  The product is taken exactly; the
    rounding of the product of doubles can move a result next to a
    boundary into the neighbouring integer but never out of the range
    [0 .. k - 1], which is all that is used of it. *)
Definition random_below (k : Z) : M num :=
  bind random (fun r => ret (Num (Qfloor (r * inject_Z k)))).

(** [Array.from({ length: n }, () => m)]. *)
Fixpoint array_from {A : Type} (n : nat) (m : M A) : M (list A) :=
  match n with
  | O => ret []
  | S n' => bind m (fun x => bind (array_from n' m) (fun l => ret (x :: l)))
  end.

Definition run {A : Type} (m : M A) (g : rng) : A := fst (m g).

End Rand.

(** ** Constants *)

Module Constants.

(** Modelled from the spec: the module [../constants] is not part of the
    sources at hand; the CPF validator fails when the cleaned length
    differs from 11. *)
Definition CPF_LENGTH : nat := 11.

(** Modelled from the spec: the module [../constants] is not part of the
    sources at hand; a CNPJ has 14 characters. *)
Definition CNPJ_LENGTH : nat := 14.

(** Modelled from the spec: the module [../constants] is not part of the
    sources at hand; a letter of an alphanumeric base is a random
    uppercase letter, A to Z. *)
Definition ALPHABET : str := lit "ABCDEFGHIJKLMNOPQRSTUVWXYZ".

End Constants.

(** ** The CPF engine *)

Module Cpf.
Import Rand Constants.

Record CPFOptions : Type := { formatted : option bool }.

(** [cpf.replace(/\D/g, "")]. *)
Definition cleanCPF (cpf : str) : str := List.filter is_digit cpf.

Definition isValidFormat (cpf : str) : bool :=
  if negb (length cpf =? CPF_LENGTH)%nat then false
  else negb (test_repeated_digit cpf)
       && negb (str_eqb cpf (lit "12345678909")).

Definition generateBaseCPF : M (list num) :=
  array_from 9 (random_below 10).

Definition calculateCheckDigit (numbers : list num) : num :=
  let weight := Num (Z.of_nat (length numbers) + 1) in
  let sum :=
    reduce (fun acc num index => add acc (mul num (sub weight (Num (Z.of_nat index)))))
           numbers (Num 0) in
  let remainder := rem sum (Num 11) in
  if lt remainder (Num 2) then Num 0 else sub (Num 11) remainder.

(** One attempt of [/(\d{3})(\d{3})(\d{3})(\d{2})/] at the head of [s]. *)
Definition format_match (s : str) : option str :=
  match s with
  | a1 :: a2 :: a3 :: b1 :: b2 :: b3 :: c1 :: c2 :: c3 :: d1 :: d2 :: rest =>
      if forallb is_digit [a1; a2; a3; b1; b2; b3; c1; c2; c3; d1; d2]
      then Some ([a1; a2; a3] ++ lit "." ++ [b1; b2; b3] ++ lit "."
                 ++ [c1; c2; c3] ++ lit "-" ++ [d1; d2] ++ rest)
      else None
  | _ => None
  end.

(** [cpf.replace(/(\d{3})(\d{3})(\d{3})(\d{2})/, "$1.$2.$3-$4")]: the
    leftmost run of eleven digits is rewritten, the rest is kept. *)
Fixpoint format (cpf : str) : str :=
  match cpf with
  | [] => []
  | c :: t =>
      match format_match cpf with
      | Some r => r
      | None => c :: format t
      end
  end.

Definition generate (options : option CPFOptions) : M str :=
  bind generateBaseCPF (fun baseCPF =>
    let firstDigit := calculateCheckDigit baseCPF in
    let secondDigit := calculateCheckDigit (baseCPF ++ [firstDigit]) in
    let cpf := join (baseCPF ++ [firstDigit; secondDigit]) in
    ret (if truthy (options ≫= formatted) then format cpf else cpf)).

Definition isValid (cpf : str) : bool :=
  let cleanedCPF := cleanCPF cpf in
  if negb (isValidFormat cleanedCPF) then false
  else
    let digits := map Number_char cleanedCPF in
    let baseCPF := slice_to 9 digits in
    let firstDigit := calculateCheckDigit baseCPF in
    let secondDigit := calculateCheckDigit (baseCPF ++ [firstDigit]) in
    strict_eq_at firstDigit (nth_error digits 9)
    && strict_eq_at secondDigit (nth_error digits 10).

End Cpf.

(** ** The numeric (legacy) CNPJ engine: [src/cnpj/numeric.ts] *)

Module Numeric.
Import Rand Constants.

Definition generateBaseNumeric : M (list num) :=
  array_from 12 (random_below 10).

(** One turn of the loop of [calculateCheckDigit], on the pair of [sum]
    and [weight]. *)
Definition step (st : num * num) (d : num) : num * num :=
  let '(sum, weight) := st in
  (add sum (mul d weight),
   if strict_eq weight (Num 9) then Num 2 else add weight (Num 1)).

(** The loop runs from the last index down to the first. *)
Definition calculateCheckDigit (digits : list num) : num :=
  let '(sum, _) := fold_left step (rev digits) (Num 0, Num 2) in
  let rest := rem sum (Num 11) in
  if lt rest (Num 2) then Num 0 else sub (Num 11) rest.

Definition calculateCheckDigits (baseCNPJ : list num) : num * num :=
  let firstDigit := calculateCheckDigit baseCNPJ in
  let secondDigit := calculateCheckDigit (baseCNPJ ++ [firstDigit]) in
  (firstDigit, secondDigit).

Definition generateNumeric : M str :=
  bind generateBaseNumeric (fun baseCNPJ =>
    let '(firstDigit, secondDigit) := calculateCheckDigits baseCNPJ in
    ret (join (baseCNPJ ++ [firstDigit; secondDigit]))).

(** [numeric ? cnpj.replace(/\D/g, "") : cnpj.replace(/[./-]/g, "")]. *)
Definition cleanCNPJ (cnpj : str) (numeric : bool) : str :=
  if numeric then List.filter is_digit cnpj
  else List.filter
         (fun c => negb (Ascii.eqb c "." || Ascii.eqb c "/" || Ascii.eqb c "-")) cnpj.

Definition isValidFormat (cnpj : str) : bool :=
  (length cnpj =? CNPJ_LENGTH)%nat && negb (test_repeated_digit cnpj).

Definition validateNumeric (cnpj : str) : bool :=
  let cleanedCNPJ := cleanCNPJ cnpj true in
  if negb (isValidFormat cleanedCNPJ) then false
  else
    let digits := map Number_char cleanedCNPJ in
    let baseCNPJ := slice_to 12 digits in
    let '(firstDigit, secondDigit) := calculateCheckDigits baseCNPJ in
    strict_eq_at firstDigit (nth_error digits 12)
    && strict_eq_at secondDigit (nth_error digits 13).

End Numeric.

(** ** The alphanumeric CNPJ engine: [src/cnpj/alfanumeric.ts] *)

Module Alfanumeric.
Import Rand Constants.

(** An element of a base: [number | string]. *)
Inductive item : Type :=
| INum (n : num)
| IStr (s : str).

Definition item_toString (x : item) : str :=
  match x with
  | INum n => toString n
  | IStr s => s
  end.

Definition letterMap : gmap string num :=
  list_to_map
    [("A"%string, Num 17); ("B"%string, Num 18); ("C"%string, Num 19);
     ("D"%string, Num 20); ("E"%string, Num 21); ("F"%string, Num 22);
     ("G"%string, Num 23); ("H"%string, Num 24); ("I"%string, Num 25);
     ("J"%string, Num 26); ("K"%string, Num 27); ("L"%string, Num 28);
     ("M"%string, Num 29); ("N"%string, Num 30); ("O"%string, Num 31);
     ("P"%string, Num 32); ("Q"%string, Num 33); ("R"%string, Num 34);
     ("S"%string, Num 35); ("T"%string, Num 36); ("U"%string, Num 37);
     ("V"%string, Num 38); ("W"%string, Num 39); ("X"%string, Num 40);
     ("Y"%string, Num 41); ("Z"%string, Num 42)].

(** [letterMap[digit] || 0].  The callers pass strings of at most one
    character, none of which names an inherited property of the
    object. *)
Definition convertLetterToNumber (digit : str) : num :=
  or_zero (letterMap !! string_of_list_ascii digit).

(** One position of the base: a digit when the first draw is below one
    half, a letter of the alphabet otherwise. *)
Definition generateBaseItem : M item :=
  bind random (fun r =>
    let randomChoice := Qlt_le_dec r (1 # 2) in
    if randomChoice
    then bind (random_below 10) (fun d => ret (INum d))
    else bind (random_below (Z.of_nat (length ALPHABET)))
              (fun i => ret (IStr (charAt ALPHABET i)))).

Definition generateBaseAlphanumeric : M (list item) :=
  array_from 12 generateBaseItem.

(** [typeof digit === "string" ? convertLetterToNumber(digit) : digit]. *)
Definition numericDigit (digit : item) : num :=
  match digit with
  | IStr s => convertLetterToNumber s
  | INum n => n
  end.

Definition step (st : num * num) (digit : item) : num * num :=
  let '(sum, weight) := st in
  (add sum (mul (numericDigit digit) weight),
   if strict_eq weight (Num 9) then Num 2 else add weight (Num 1)).

Definition calculateCheckDigit (digits : list item) : num :=
  let '(sum, _) := fold_left step (rev digits) (Num 0, Num 2) in
  let rest := rem sum (Num 11) in
  if lt rest (Num 2) then Num 0 else sub (Num 11) rest.

Definition calculateCheckDigits (baseCNPJ : list item) : num * num :=
  let firstDigit := calculateCheckDigit baseCNPJ in
  let secondDigit := calculateCheckDigit (baseCNPJ ++ [INum firstDigit]) in
  (firstDigit, secondDigit).

Definition generateAlphanumeric : M str :=
  bind generateBaseAlphanumeric (fun baseCNPJ =>
    let '(firstDigit, secondDigit) := calculateCheckDigits baseCNPJ in
    let alphanumericCNPJ := baseCNPJ ++ [INum firstDigit; INum secondDigit] in
    ret (concat (map item_toString alphanumericCNPJ))).

(** [isNaN(Number(item)) ? convertLetterToNumber(item) : +item]. *)
Definition convertItem (c : ascii) : num :=
  if isNaN (Number_char c) then convertLetterToNumber [c] else Number_char c.

Definition convertCnpj (cnpj : str) : list num := map convertItem cnpj.

Definition validateAlphanumeric (cnpj : str) : bool :=
  let digits :=
    convertCnpj (if (length cnpj =? CNPJ_LENGTH)%nat then slice_to 12 cnpj else cnpj) in
  let '(dv1, dv2) := calculateCheckDigits (map INum digits) in
  let twoFinalDigitsOriginal := parseInt (slice_last 2 cnpj) in
  let twoFinalDigitsCalculated := parseInt (toString dv1 ++ toString dv2) in
  strict_eq twoFinalDigitsOriginal twoFinalDigitsCalculated.

End Alfanumeric.

(** ** The CNPJ dispatcher *)

Module Cnpj.
Import Rand Constants.

Inductive cnpj_type : Type := numeric | alfanumeric.

Record CNPJOptions : Type :=
  { type : option cnpj_type; formatted : option bool }.

(** One attempt of [/(.{2})(.{3})(.{3})(.{4})(.{2})/] at the head of [s]. *)
Definition format_match (s : str) : option str :=
  match s with
  | a1 :: a2 :: b1 :: b2 :: b3 :: c1 :: c2 :: c3
    :: d1 :: d2 :: d3 :: d4 :: e1 :: e2 :: rest =>
      if forallb (fun c => negb (is_line_terminator c))
                 [a1; a2; b1; b2; b3; c1; c2; c3; d1; d2; d3; d4; e1; e2]
      then Some ([a1; a2] ++ lit "." ++ [b1; b2; b3] ++ lit "."
                 ++ [c1; c2; c3] ++ lit "/" ++ [d1; d2; d3; d4]
                 ++ lit "-" ++ [e1; e2] ++ rest)
      else None
  | _ => None
  end.

(** [cnpj.replace(/(.{2})(.{3})(.{3})(.{4})(.{2})/, "$1.$2.$3/$4-$5")]. *)
Fixpoint format (cnpj : str) : str :=
  match cnpj with
  | [] => []
  | c :: t =>
      match format_match cnpj with
      | Some r => r
      | None => c :: format t
      end
  end.

Definition generate (options : option CNPJOptions) : M str :=
  bind (match options ≫= type with
        | Some alfanumeric => Alfanumeric.generateAlphanumeric
        | _ => Numeric.generateNumeric
        end)
       (fun cnpj => ret (if truthy (options ≫= formatted) then format cnpj else cnpj)).

(** [/^[0-9]+$/.test(value)]. *)
Definition isNumeric (value : str) : bool :=
  match value with
  | [] => false
  | _ => forallb is_digit value
  end.

(** [/^[a-zA-Z0-9]+$/.test(value)]. *)
Definition isAlfanumeric (value : str) : bool :=
  match value with
  | [] => false
  | _ => forallb is_alnum value
  end.

Definition isValid (cnpj : str) : bool :=
  let cleanedCNPJ := List.filter is_alnum cnpj in
  if (length cleanedCNPJ =? CNPJ_LENGTH)%nat then
    if isNumeric cleanedCNPJ then Numeric.validateNumeric cleanedCNPJ
    else if isAlfanumeric cleanedCNPJ then Alfanumeric.validateAlphanumeric cleanedCNPJ
    else false
  else false.

End Cnpj.

(** ** The schema rules: [src/index.ts] *)

Module Index.

(** What a rule hands back: the error that [helpers.error(code)] builds,
    or the value. *)
Inductive outcome : Type :=
| Error (code : string)
| Value (value : option str).

(** The [messages] of the extension. *)
Definition messages : gmap string string :=
  list_to_map
    [("document.cpf"%string, "CPF inválido"%string);
     ("document.cnpj"%string, "CNPJ inválido"%string)].

(** [rules.cpf.validate(value, helpers)]; [None] is [null]. *)
Definition cpf_validate (value : option str) : outcome :=
  match value with
  | Some v => if negb (Cpf.isValid v) then Error "document.cpf" else Value value
  | None => Value value
  end.

(** [rules.cnpj.validate(value, helpers)]. *)
Definition cnpj_validate (value : option str) : outcome :=
  match value with
  | Some v => if negb (Cnpj.isValid v) then Error "document.cnpj" else Value value
  | None => Value value
  end.

End Index.

(** ** The specification's vocabulary

    These definitions follow the words of the specification, not the
    sources; the theorems below compare the two. *)

Module Spec.

Fixpoint sum (l : list Z) : Z :=
  match l with
  | [] => 0
  | x :: t => x + sum t
  end.

(** [0] if the remainder of the sum modulo 11 is less than 2, else 11
    minus the remainder. *)
Definition mod11_digit (s : Z) : Z :=
  let remainder := s mod 11 in
  if remainder <? 2 then 0 else 11 - remainder.

(** CPF: the weight is [len + 1] for the leftmost element and decreases
    by one per position. *)
Definition cpf_weighted_sum (v : list Z) : Z :=
  sum (map (fun i => nth i v 0 * (Z.of_nat (length v) + 1 - Z.of_nat i))
           (seq 0 (length v))).

(** CNPJ: the weight of the [j]-th element counted from the right, which
    cycles through 2, 3, ..., 9. *)
Definition cnpj_weight (j : nat) : Z := 2 + Z.of_nat (j mod 8).

Definition cnpj_weighted_sum (v : list Z) : Z :=
  sum (map (fun j => nth j (rev v) 0 * cnpj_weight j) (seq 0 (length v))).

(** The value of a position of an alphanumeric CNPJ: the digit itself,
    the ASCII code minus 48 for an uppercase letter, 0 otherwise. *)
Definition char_value (c : ascii) : Z :=
  if is_digit c then digit_value c
  else if is_upper c then Z.of_N (code c) - 48
  else 0.

Definition digit_range (d : Z) : Prop := 0 <= d <= 9.

(** The character of a decimal digit. *)
Definition digit_char (d : Z) : ascii := ascii_of_N (Z.to_N (d + 48)).

Definition lower_char (c : ascii) : ascii :=
  if is_upper c then ascii_of_N (code c + 32) else c.

(** The lowercased form of a string. *)
Definition toLowerCase (s : str) : str := map lower_char s.

(** The integer read from a string as the specification describes it:
    the decimal digits up to the first character that is not a digit,
    [NaN] when the string does not start with a digit. *)
Definition leading_integer (s : str) : num :=
  match parse_digits 10 s 0 false with
  | (v, true) => Num v
  | (_, false) => NaN
  end.

(** [s] with the character at index [i] changed to [c]. *)
Definition set_char (i : nat) (c : ascii) (s : str) : str :=
  firstn i s ++ c :: skipn (S i) s.

End Spec.

(** ** Auxiliary definitions, used by the proofs *)

Module Aux.

(** The check-digit rule as the sources compute it, with the remainder
    of JavaScript. *)
Definition zdigit (s : Z) : Z :=
  let r := Z.rem s 11 in
  if r <? 2 then 0 else 11 - r.

(** The sum of [l] weighted by [f k], [f (k + 1)], ... *)
Fixpoint gsum (f : nat -> Z) (k : nat) (l : list Z) : Z :=
  match l with
  | [] => 0
  | x :: t => x * f k + gsum f (S k) t
  end.

Definition cpf_cd (l : list Z) : Z :=
  zdigit (gsum (fun i => Z.of_nat (length l) + 1 - Z.of_nat i) 0 l).

Definition cnpj_cd (l : list Z) : Z :=
  zdigit (gsum Spec.cnpj_weight 0 (rev l)).

(** [returns m P]: on every stream of unit draws, [m] yields a value
    that satisfies [P] and leaves a stream of unit draws. *)
Definition returns {A : Type} (m : Rand.M A) (P : A -> Prop) : Prop :=
  forall g, Rand.unit_draws g ->
            P (fst (m g)) /\ Rand.unit_draws (snd (m g)).

(** An element of a generated alphanumeric base: a digit, as a number,
    or an uppercase letter, as a string of one character. *)
Definition base_item (x : Alfanumeric.item) : Prop :=
  (exists d, x = Alfanumeric.INum (Num d) /\ Spec.digit_range d)
  \/ (exists c, x = Alfanumeric.IStr [c] /\ is_upper c = true).

(** The character and the value of such an element. *)
Definition item_char (x : Alfanumeric.item) : ascii :=
  match x with
  | Alfanumeric.INum (Num d) => Spec.digit_char d
  | Alfanumeric.IStr [c] => c
  | _ => "0"%char
  end.

Definition item_val (x : Alfanumeric.item) : Z :=
  match x with
  | Alfanumeric.INum (Num d) => d
  | Alfanumeric.IStr [c] => Z.of_N (code c) - 48
  | _ => 0
  end.

(** The recomputation of the two check digits by [Cpf.isValid], on a
    cleaned string, without the check of the format before it. *)
Definition cpf_checksum_passes (cleanedCPF : str) : bool :=
  let digits := map Number_char cleanedCPF in
  let baseCPF := slice_to 9 digits in
  let firstDigit := Cpf.calculateCheckDigit baseCPF in
  let secondDigit := Cpf.calculateCheckDigit (baseCPF ++ [firstDigit]) in
  strict_eq_at firstDigit (nth_error digits 9)
  && strict_eq_at secondDigit (nth_error digits 10).

(** The same for [Numeric.validateNumeric]. *)
Definition cnpj_checksum_passes (cleanedCNPJ : str) : bool :=
  let digits := map Number_char cleanedCNPJ in
  let baseCNPJ := slice_to 12 digits in
  let '(firstDigit, secondDigit) := Numeric.calculateCheckDigits baseCNPJ in
  strict_eq_at firstDigit (nth_error digits 12)
  && strict_eq_at secondDigit (nth_error digits 13).

(** An element of an array of integers and strings of one character. *)
Definition item_of (x : Z + ascii) : Alfanumeric.item :=
  match x with
  | inl z => Alfanumeric.INum (Num z)
  | inr c => Alfanumeric.IStr [c]
  end.

(** The value of such an element in the weighted sum: the integer, the
    ASCII code minus 48 for the string of an uppercase letter, 0 for any
    other string of one character. *)
Definition mixed_val (x : Z + ascii) : Z :=
  match x with
  | inl z => z
  | inr c => if is_upper c then Z.of_N (code c) - 48 else 0
  end.

(** Letters, of either case. *)
Definition is_letter (c : ascii) : bool := is_lower c || is_upper c.

End Aux.

(** ** Arithmetic of the check-digit rule *)

Lemma zdigit_range (s : Z) : 0 <= Aux.zdigit s <= 9.
Proof.
  unfold Aux.zdigit.
  assert (Hr : -11 < Z.rem s 11 < 11).
  { pose proof (Z.rem_bound_abs s 11 ltac:(lia)) as H. lia. }
  destruct (Z.rem s 11 <? 2) eqn:E; [lia|].
  apply Z.ltb_ge in E. lia.
Qed.

Lemma cnpj_cd_range (l : list Z) : 0 <= Aux.cnpj_cd l <= 9.
Proof. apply zdigit_range. Qed.

Lemma cpf_cd_range (l : list Z) : 0 <= Aux.cpf_cd l <= 9.
Proof. apply zdigit_range. Qed.

Lemma zdigit_spec (s : Z) : 0 <= s -> Aux.zdigit s = Spec.mod11_digit s.
Proof.
  intros Hs. unfold Aux.zdigit, Spec.mod11_digit.
  rewrite Z.rem_mod_nonneg by lia. reflexivity.
Qed.

Lemma gsum_nonneg (f : nat -> Z) (l : list Z) :
  Forall (fun d => 0 <= d) l ->
  forall k, (forall i, (k <= i < k + length l)%nat -> 0 <= f i) ->
            0 <= Aux.gsum f k l.
Proof.
  intros Hl. induction Hl as [|x t Hx _ IH]; intros k Hf; simpl; [lia|].
  assert (0 <= f k) by (apply Hf; simpl; lia).
  assert (0 <= Aux.gsum f (S k) t) by (apply IH; intros i Hi; apply Hf; simpl; lia).
  nia.
Qed.

(** The indexed sums of the specification are the recursive sums. *)
Lemma sum_seq_gsum (f : nat -> Z) (l : list Z) :
  forall k,
    Spec.sum (map (fun i => nth (i - k) l 0 * f i) (seq k (length l)))
    = Aux.gsum f k l.
Proof.
  induction l as [|x t IH]; intros k; simpl; [reflexivity|].
  rewrite Nat.sub_diag. f_equal.
  rewrite <- IH. f_equal. apply map_ext_in.
  intros i Hi. apply in_seq in Hi.
  replace (i - k)%nat with (S (i - S k)) by lia. reflexivity.
Qed.

Lemma cpf_weighted_sum_gsum (l : list Z) :
  Spec.cpf_weighted_sum l
  = Aux.gsum (fun i => Z.of_nat (length l) + 1 - Z.of_nat i) 0 l.
Proof.
  unfold Spec.cpf_weighted_sum. rewrite <- sum_seq_gsum.
  f_equal. apply map_ext. intros i. rewrite Nat.sub_0_r. reflexivity.
Qed.

Lemma cnpj_weighted_sum_gsum (l : list Z) :
  Spec.cnpj_weighted_sum l = Aux.gsum Spec.cnpj_weight 0 (rev l).
Proof.
  unfold Spec.cnpj_weighted_sum. rewrite <- sum_seq_gsum, length_rev.
  f_equal. apply map_ext. intros i. rewrite Nat.sub_0_r. reflexivity.
Qed.

Lemma cnpj_weight_range (j : nat) : 2 <= Spec.cnpj_weight j <= 9.
Proof.
  unfold Spec.cnpj_weight.
  pose proof (Nat.mod_upper_bound j 8 ltac:(lia)). lia.
Qed.

(** The update of the weight in the loop is the cycle 2, 3, ..., 9. *)
Lemma cnpj_weight_succ (j : nat) :
  Spec.cnpj_weight (S j)
  = if Spec.cnpj_weight j =? 9 then 2 else Spec.cnpj_weight j + 1.
Proof.
  unfold Spec.cnpj_weight.
  pose proof (Nat.mod_upper_bound j 8 ltac:(lia)) as Hb.
  replace (S j) with (j + 1)%nat by lia.
  rewrite <- Nat.Div0.add_mod_idemp_l.
  destruct (2 + Z.of_nat (j mod 8) =? 9) eqn:E.
  - apply Z.eqb_eq in E. replace (j mod 8)%nat with 7%nat by lia. reflexivity.
  - apply Z.eqb_neq in E. rewrite Nat.mod_small by lia. lia.
Qed.

(** ** The check-digit calculators on integers *)

Lemma cpf_reduce_num (w : Z) (l : list Z) :
  forall (k : nat) (a : Z),
    reduce_from
      (fun acc num index => add acc (mul num (sub (Num w) (Num (Z.of_nat index)))))
      k (map Num l) (Num a)
    = Num (a + Aux.gsum (fun i => w - Z.of_nat i) k l).
Proof.
  induction l as [|x t IH]; intros k a; simpl.
  - f_equal. lia.
  - rewrite IH. f_equal. lia.
Qed.

Lemma num_digit_rule (s : Z) :
  (if lt (rem (Num s) (Num 11)) (Num 2) then Num 0
   else sub (Num 11) (rem (Num s) (Num 11)))
  = Num (Aux.zdigit s).
Proof.
  unfold Aux.zdigit. cbn [rem lt sub]. change (11 =? 0) with false. cbn iota.
  cbn [lt sub]. destruct (Z.rem s 11 <? 2); reflexivity.
Qed.

Lemma cpf_calculateCheckDigit_num (l : list Z) :
  Cpf.calculateCheckDigit (map Num l) = Num (Aux.cpf_cd l).
Proof.
  unfold Cpf.calculateCheckDigit, reduce, Aux.cpf_cd.
  rewrite length_map, cpf_reduce_num, Z.add_0_l. apply num_digit_rule.
Qed.

Lemma numeric_loop_num (r : list Z) :
  forall (j : nat) (a : Z),
    fold_left Numeric.step (map Num r) (Num a, Num (Spec.cnpj_weight j))
    = (Num (a + Aux.gsum Spec.cnpj_weight j r),
       Num (Spec.cnpj_weight (j + length r))).
Proof.
  induction r as [|x t IH]; intros j a; simpl.
  - rewrite Nat.add_0_r. do 2 f_equal. lia.
  - cbn [add mul strict_eq].
    replace (if Spec.cnpj_weight j =? 9 then Num 2 else Num (Spec.cnpj_weight j + 1))
      with (Num (Spec.cnpj_weight (S j)))
      by (rewrite cnpj_weight_succ; destruct (Spec.cnpj_weight j =? 9); reflexivity).
    rewrite IH.
    replace (S j + length t)%nat with (j + S (length t))%nat by lia.
    do 2 f_equal. lia.
Qed.

Lemma numeric_calculateCheckDigit_num (l : list Z) :
  Numeric.calculateCheckDigit (map Num l) = Num (Aux.cnpj_cd l).
Proof.
  unfold Numeric.calculateCheckDigit, Aux.cnpj_cd.
  rewrite <- map_rev.
  change (Num 2) with (Num (Spec.cnpj_weight 0)) at 1.
  rewrite numeric_loop_num, Z.add_0_l. apply num_digit_rule.
Qed.

(** The alphanumeric calculator is the numeric one on the values of the
    items. *)
Lemma alfanumeric_loop_numeric (r : list Alfanumeric.item) :
  forall st,
    fold_left Alfanumeric.step r st
    = fold_left Numeric.step (map Alfanumeric.numericDigit r) st.
Proof.
  induction r as [|x t IH]; intros [sum weight]; simpl; [reflexivity|].
  apply IH.
Qed.

Lemma alfanumeric_calculateCheckDigit_numeric (l : list Alfanumeric.item) :
  Alfanumeric.calculateCheckDigit l
  = Numeric.calculateCheckDigit (map Alfanumeric.numericDigit l).
Proof.
  unfold Alfanumeric.calculateCheckDigit, Numeric.calculateCheckDigit.
  rewrite alfanumeric_loop_numeric, map_rev. reflexivity.
Qed.

(** ** Characters *)

(** Case analysis on the 256 characters. *)
Ltac all_chars c :=
  let b0 := fresh "b" in let b1 := fresh "b" in let b2 := fresh "b" in
  let b3 := fresh "b" in let b4 := fresh "b" in let b5 := fresh "b" in
  let b6 := fresh "b" in let b7 := fresh "b" in
  destruct c as [b0 b1 b2 b3 b4 b5 b6 b7];
  destruct b0, b1, b2, b3, b4, b5, b6, b7.

Lemma convertItem_value (c : ascii) :
  Alfanumeric.convertItem c = Num (Spec.char_value c).
Proof. all_chars c; vm_compute; reflexivity. Qed.

Lemma convertLetterToNumber_char (c : ascii) :
  Alfanumeric.convertLetterToNumber [c]
  = Num (if is_upper c then Z.of_N (code c) - 48 else 0).
Proof. all_chars c; vm_compute; reflexivity. Qed.

Lemma char_value_nonneg (c : ascii) : 0 <= Spec.char_value c.
Proof. all_chars c; vm_compute; discriminate. Qed.

Lemma is_digit_char (c : ascii) :
  is_digit c = true ->
  Spec.digit_range (digit_value c) /\ c = Spec.digit_char (digit_value c)
  /\ Number_char c = Num (digit_value c).
Proof.
  all_chars c; intros H; try discriminate H;
    (split; [vm_compute; split; discriminate | split; reflexivity]).
Qed.

Lemma digit_range_cases (d : Z) :
  Spec.digit_range d ->
  d = 0 \/ d = 1 \/ d = 2 \/ d = 3 \/ d = 4 \/ d = 5 \/ d = 6 \/ d = 7
  \/ d = 8 \/ d = 9.
Proof. unfold Spec.digit_range. lia. Qed.

Ltac all_digits H :=
  apply digit_range_cases in H;
  repeat (destruct H as [H|H]); subst.

Lemma digit_char_props (d : Z) :
  Spec.digit_range d ->
  is_digit (Spec.digit_char d) = true
  /\ digit_value (Spec.digit_char d) = d
  /\ Number_char (Spec.digit_char d) = Num d
  /\ toString (Num d) = [Spec.digit_char d]
  /\ is_alnum (Spec.digit_char d) = true
  /\ is_line_terminator (Spec.digit_char d) = false.
Proof. intros H. all_digits H; repeat split. Qed.

(** ** C7, C5: the check-digit calculators *)

(** C7. In the alphanumeric engine a position is worth the digit itself,
    the fixed map value of an uppercase letter (A = 17, ..., Z = 42, the
    ASCII code minus 48), and 0 for any other character; these are the
    values that enter the weighted sum of the check digit. *)
Theorem alphanumeric_position_value :
  (forall c, Alfanumeric.convertItem c = Num (Spec.char_value c))
  /\ (forall s, Alfanumeric.convertCnpj s = map (fun c => Num (Spec.char_value c)) s)
  /\ (forall c, Alfanumeric.numericDigit (Alfanumeric.IStr [c])
                = Num (if is_upper c then Z.of_N (code c) - 48 else 0))
  /\ (forall n, Alfanumeric.numericDigit (Alfanumeric.INum n) = n)
  /\ map (fun c => Alfanumeric.convertLetterToNumber [c]) Constants.ALPHABET
     = map Num [17; 18; 19; 20; 21; 22; 23; 24; 25; 26; 27; 28; 29; 30; 31;
                32; 33; 34; 35; 36; 37; 38; 39; 40; 41; 42]
  /\ (forall s, Alfanumeric.calculateCheckDigit
                  (map Alfanumeric.INum (Alfanumeric.convertCnpj s))
                = Num (Spec.mod11_digit
                         (Spec.cnpj_weighted_sum (map Spec.char_value s)))).
Proof.
  assert (Hconv : forall s, Alfanumeric.convertCnpj s
                            = map (fun c => Num (Spec.char_value c)) s).
  { intros s. unfold Alfanumeric.convertCnpj. apply map_ext, convertItem_value. }
  split; [exact convertItem_value|].
  split; [exact Hconv|].
  split; [exact convertLetterToNumber_char|].
  split; [reflexivity|].
  split; [vm_compute; reflexivity|].
  intros s. rewrite alfanumeric_calculateCheckDigit_numeric, map_map.
  cbn [Alfanumeric.numericDigit]. rewrite map_id, Hconv.
  rewrite <- (map_map Spec.char_value Num).
  rewrite numeric_calculateCheckDigit_num. f_equal.
  unfold Aux.cnpj_cd. rewrite cnpj_weighted_sum_gsum. apply zdigit_spec.
  apply gsum_nonneg.
  - apply List.Forall_rev. apply List.Forall_forall. intros x Hx.
    apply in_map_iff in Hx. destruct Hx as [c [<- _]]. apply char_value_nonneg.
  - intros i _. pose proof (cnpj_weight_range i). lia.
Qed.

Lemma cnpj_cd_spec (l : list Z) :
  Forall (fun d => 0 <= d) l ->
  Aux.cnpj_cd l = Spec.mod11_digit (Spec.cnpj_weighted_sum l).
Proof.
  intros H. unfold Aux.cnpj_cd. rewrite cnpj_weighted_sum_gsum.
  apply zdigit_spec, gsum_nonneg.
  - apply List.Forall_rev, H.
  - intros i _. pose proof (cnpj_weight_range i). lia.
Qed.


Lemma digit_range_nonneg (l : list Z) :
  Forall Spec.digit_range l -> Forall (fun d => 0 <= d) l.
Proof. apply List.Forall_impl. unfold Spec.digit_range. intros; lia. Qed.

(** ** Strings of digits *)

Lemma filter_all {A : Type} (p : A -> bool) (l : list A) :
  forallb p l = true -> List.filter p l = l.
Proof.
  induction l as [|x t IH]; simpl; [reflexivity|].
  intros H. apply andb_prop in H. destruct H as [Hx Ht].
  rewrite Hx, IH by exact Ht. reflexivity.
Qed.

Lemma digit_string (l : list Z) :
  Forall Spec.digit_range l ->
  join (map Num l) = map Spec.digit_char l
  /\ forallb is_digit (map Spec.digit_char l) = true
  /\ forallb is_alnum (map Spec.digit_char l) = true
  /\ map Number_char (map Spec.digit_char l) = map Num l.
Proof.
  unfold join.
  induction 1 as [|d t Hd _ [IH1 [IH2 [IH3 IH4]]]]; cbn [map concat forallb].
  - repeat split.
  - destruct (digit_char_props d Hd) as [E1 [_ [E3 [E4 [E5 _]]]]].
    rewrite E1, E3, E4, E5, IH1, IH2, IH3, IH4. repeat split.
Qed.

Lemma nth_error_map_num (l : list Z) (i : nat) :
  (i < length l)%nat -> nth_error (map Num l) i = Some (Num (nth i l 0)).
Proof.
  intros H. rewrite nth_error_map, (nth_error_nth' l 0 H). reflexivity.
Qed.

(** The CPF validator on a string of eleven digits. *)
Lemma cpf_isValid_digits (base : list Z) (a b : Z) :
  Forall Spec.digit_range base -> Spec.digit_range a -> Spec.digit_range b ->
  length base = 9%nat ->
  Cpf.isValid (map Spec.digit_char (base ++ [a; b]))
  = Cpf.isValidFormat (map Spec.digit_char (base ++ [a; b]))
    && (a =? Aux.cpf_cd base)
    && (b =? Aux.cpf_cd (base ++ [Aux.cpf_cd base])).
Proof.
  intros Hbase Ha Hb Hlen.
  assert (Hl : Forall Spec.digit_range (base ++ [a; b])).
  { apply Forall_app. split; [exact Hbase|].
    constructor; [exact Ha|]. constructor; [exact Hb|]. constructor. }
  destruct (digit_string _ Hl) as [_ [Hd [_ Hn]]].
  unfold Cpf.isValid, Cpf.cleanCPF. rewrite (filter_all _ _ Hd).
  destruct (Cpf.isValidFormat _); [|reflexivity].
  cbn [negb andb]. rewrite Hn. unfold slice_to.
  assert (Hf : firstn 9 (base ++ [a; b]) = base).
  { rewrite firstn_app, Hlen, firstn_all2 by lia. apply app_nil_r. }
  rewrite firstn_map, Hf, cpf_calculateCheckDigit_num.
  change (map Num base ++ [Num (Aux.cpf_cd base)])
    with (map Num base ++ map Num [Aux.cpf_cd base]).
  rewrite <- map_app, cpf_calculateCheckDigit_num.
  rewrite !nth_error_map_num by (rewrite length_app, Hlen; simpl; lia).
  rewrite !app_nth2 by lia. rewrite Hlen. cbn [Nat.sub nth strict_eq_at strict_eq].
  rewrite (Z.eqb_sym a), (Z.eqb_sym b). reflexivity.
Qed.

(** The numeric CNPJ validator on a string of fourteen digits. *)
Lemma numeric_validate_digits (base : list Z) (a b : Z) :
  Forall Spec.digit_range base -> Spec.digit_range a -> Spec.digit_range b ->
  length base = 12%nat ->
  Numeric.validateNumeric (map Spec.digit_char (base ++ [a; b]))
  = Numeric.isValidFormat (map Spec.digit_char (base ++ [a; b]))
    && (a =? Aux.cnpj_cd base)
    && (b =? Aux.cnpj_cd (base ++ [Aux.cnpj_cd base])).
Proof.
  intros Hbase Ha Hb Hlen.
  assert (Hl : Forall Spec.digit_range (base ++ [a; b])).
  { apply Forall_app. split; [exact Hbase|].
    constructor; [exact Ha|]. constructor; [exact Hb|]. constructor. }
  destruct (digit_string _ Hl) as [_ [Hd [_ Hn]]].
  unfold Numeric.validateNumeric, Numeric.cleanCNPJ. rewrite (filter_all _ _ Hd).
  destruct (Numeric.isValidFormat _); [|reflexivity].
  cbn [negb andb]. rewrite Hn. unfold slice_to, Numeric.calculateCheckDigits.
  assert (Hf : firstn 12 (base ++ [a; b]) = base).
  { rewrite firstn_app, Hlen, firstn_all2 by lia. apply app_nil_r. }
  rewrite firstn_map, Hf, numeric_calculateCheckDigit_num.
  change (map Num base ++ [Num (Aux.cnpj_cd base)])
    with (map Num base ++ map Num [Aux.cnpj_cd base]).
  rewrite <- map_app, numeric_calculateCheckDigit_num.
  rewrite !nth_error_map_num by (rewrite length_app, Hlen; simpl; lia).
  rewrite !app_nth2 by lia. rewrite Hlen. cbn [Nat.sub nth strict_eq_at strict_eq].
  rewrite (Z.eqb_sym a), (Z.eqb_sym b). reflexivity.
Qed.



(** ** C4: the CPF blacklist *)

Lemma test_repeated_digit_repeat (c : ascii) (n : nat) :
  is_digit c = true -> test_repeated_digit (repeat c (S (S n))) = true.
Proof.
  intros H. cbn [repeat test_repeated_digit]. rewrite H. cbn [andb forallb].
  rewrite Ascii.eqb_refl. cbn [andb].
  induction n as [|n IH]; cbn [repeat forallb]; [reflexivity|].
  rewrite Ascii.eqb_refl. exact IH.
Qed.

Lemma cpf_isValid_split (s : str) :
  Cpf.isValid s
  = Cpf.isValidFormat (Cpf.cleanCPF s) && Aux.cpf_checksum_passes (Cpf.cleanCPF s).
Proof.
  unfold Cpf.isValid, Aux.cpf_checksum_passes.
  destruct (Cpf.isValidFormat (Cpf.cleanCPF s)); reflexivity.
Qed.

Lemma cpf_isValid_length (s : str) :
  length (Cpf.cleanCPF s) <> 11%nat -> Cpf.isValid s = false.
Proof.
  intros H. rewrite cpf_isValid_split. unfold Cpf.isValidFormat, Constants.CPF_LENGTH.
  apply Nat.eqb_neq in H. rewrite H. reflexivity.
Qed.

(** C4. [cpf.isValid] is false whenever the cleaned input does not have
    length 11, is eleven copies of one digit, or is "12345678909"; yet all
    these eleven-digit strings pass the recomputation of the check
    digits. *)
Theorem cpf_blacklist (s : str) :
  (length (Cpf.cleanCPF s) <> 11%nat
   \/ (exists c, is_digit c = true /\ Cpf.cleanCPF s = repeat c 11)
   \/ Cpf.cleanCPF s = lit "12345678909"
   -> Cpf.isValid s = false)
  /\ (forall c, is_digit c = true -> Aux.cpf_checksum_passes (repeat c 11) = true)
  /\ Aux.cpf_checksum_passes (lit "12345678909") = true.
Proof.
  split; [|split].
  - intros H. rewrite cpf_isValid_split.
    replace (Cpf.isValidFormat (Cpf.cleanCPF s)) with false; [reflexivity|].
    symmetry. unfold Cpf.isValidFormat, Constants.CPF_LENGTH.
    destruct H as [H | [[c [Hc H]] | H]].
    + apply Nat.eqb_neq in H. rewrite H. reflexivity.
    + rewrite H, repeat_length, (test_repeated_digit_repeat c 9 Hc). reflexivity.
    + rewrite H. reflexivity.
  - intros c Hc. revert Hc. all_chars c; intros Hc; try discriminate Hc;
      vm_compute; reflexivity.
  - vm_compute. reflexivity.
Qed.

Lemma cpf_blacklist_witness :
  Cpf.isValid (lit "111.111.111-11") = false.
Proof.
  apply (proj1 (cpf_blacklist (lit "111.111.111-11"))).
  right. left. exists "1"%char. split; reflexivity.
Defined.

(** ** C2: formatting and validation *)

Lemma cpf_format_match_clean (s r : str) :
  Cpf.format_match s = Some r -> Cpf.cleanCPF r = Cpf.cleanCPF s.
Proof.
  unfold Cpf.format_match.
  destruct s as [|a1 [|a2 [|a3 [|b1 [|b2 [|b3 [|c1 [|c2 [|c3 [|d1 [|d2 rest]]]]]]]]]]];
    try discriminate.
  destruct (forallb _ _); [|discriminate].
  intros E. injection E as <-. unfold Cpf.cleanCPF.
  change (a1 :: a2 :: a3 :: b1 :: b2 :: b3 :: c1 :: c2 :: c3 :: d1 :: d2 :: rest)
    with ([a1; a2; a3] ++ [b1; b2; b3] ++ [c1; c2; c3] ++ [d1; d2] ++ rest).
  change (a1 :: a2 :: a3 :: "."%char :: b1 :: b2 :: b3 :: "."%char
             :: c1 :: c2 :: c3 :: "-"%char :: d1 :: d2 :: rest)
    with ([a1; a2; a3] ++ ["."%char] ++ [b1; b2; b3] ++ ["."%char]
            ++ [c1; c2; c3] ++ ["-"%char] ++ [d1; d2] ++ rest).
  rewrite !List.filter_app.
  change (List.filter is_digit ["."%char]) with (@nil ascii).
  change (List.filter is_digit ["-"%char]) with (@nil ascii).
  reflexivity.
Qed.

(** The CPF formatter only inserts punctuation, which the cleaning of the
    validator removes. *)
Lemma cpf_format_clean (s : str) :
  Cpf.cleanCPF (Cpf.format s) = Cpf.cleanCPF s.
Proof.
  induction s as [|c t IH]; [reflexivity|].
  cbn [Cpf.format]. destruct (Cpf.format_match (c :: t)) as [r|] eqn:E.
  - apply cpf_format_match_clean, E.
  - unfold Cpf.cleanCPF in *. cbn [List.filter]. rewrite IH. reflexivity.
Qed.

Lemma cnpj_format_match_clean (s r : str) :
  Cnpj.format_match s = Some r -> List.filter is_alnum r = List.filter is_alnum s.
Proof.
  unfold Cnpj.format_match.
  destruct s as [|a1 [|a2 [|b1 [|b2 [|b3 [|c1 [|c2 [|c3 [|d1 [|d2 [|d3 [|d4
                [|e1 [|e2 rest]]]]]]]]]]]]]]; try discriminate.
  destruct (forallb _ _); [|discriminate].
  intros E. injection E as <-.
  change (a1 :: a2 :: b1 :: b2 :: b3 :: c1 :: c2 :: c3 :: d1 :: d2 :: d3 :: d4
             :: e1 :: e2 :: rest)
    with ([a1; a2] ++ [b1; b2; b3] ++ [c1; c2; c3] ++ [d1; d2; d3; d4]
            ++ [e1; e2] ++ rest).
  change (a1 :: a2 :: "."%char :: b1 :: b2 :: b3 :: "."%char :: c1 :: c2 :: c3
             :: "/"%char :: d1 :: d2 :: d3 :: d4 :: "-"%char :: e1 :: e2 :: rest)
    with ([a1; a2] ++ ["."%char] ++ [b1; b2; b3] ++ ["."%char] ++ [c1; c2; c3]
            ++ ["/"%char] ++ [d1; d2; d3; d4] ++ ["-"%char] ++ [e1; e2] ++ rest).
  rewrite !List.filter_app.
  change (List.filter is_alnum ["."%char]) with (@nil ascii).
  change (List.filter is_alnum ["/"%char]) with (@nil ascii).
  change (List.filter is_alnum ["-"%char]) with (@nil ascii).
  reflexivity.
Qed.

Lemma cnpj_format_clean (s : str) :
  List.filter is_alnum (Cnpj.format s) = List.filter is_alnum s.
Proof.
  induction s as [|c t IH]; [reflexivity|].
  cbn [Cnpj.format]. destruct (Cnpj.format_match (c :: t)) as [r|] eqn:E.
  - apply cnpj_format_match_clean, E.
  - cbn [List.filter]. rewrite IH. reflexivity.
Qed.

Lemma cpf_isValid_format (s : str) : Cpf.isValid (Cpf.format s) = Cpf.isValid s.
Proof. rewrite !cpf_isValid_split, cpf_format_clean. reflexivity. Qed.

Lemma cnpj_isValid_format (s : str) : Cnpj.isValid (Cnpj.format s) = Cnpj.isValid s.
Proof. unfold Cnpj.isValid. rewrite cnpj_format_clean. reflexivity. Qed.

(** C2. Formatting has no effect on validation: for every generated
    document [x], of either kind and with any options,
    [isValid (format x)] is [isValid x]; this holds of every string. *)
Theorem format_preserves_validity :
  (forall (g : Rand.rng) (options : option Cpf.CPFOptions),
      let x := Rand.run (Cpf.generate options) g in
      Cpf.isValid (Cpf.format x) = Cpf.isValid x)
  /\ (forall (g : Rand.rng) (options : option Cnpj.CNPJOptions),
         let x := Rand.run (Cnpj.generate options) g in
         Cnpj.isValid (Cnpj.format x) = Cnpj.isValid x)
  /\ (forall s, Cpf.isValid (Cpf.format s) = Cpf.isValid s)
  /\ (forall s, Cnpj.isValid (Cnpj.format s) = Cnpj.isValid s).
Proof.
  repeat split; intros.
  - apply cpf_isValid_format.
  - apply cnpj_isValid_format.
  - apply cpf_isValid_format.
  - apply cnpj_isValid_format.
Qed.

(** ** C9: the dispatcher *)

Lemma forallb_filter {A : Type} (p : A -> bool) (l : list A) :
  forallb p (List.filter p l) = true.
Proof.
  induction l as [|x t IH]; [reflexivity|].
  cbn [List.filter]. destruct (p x) eqn:E; [|exact IH].
  cbn [forallb]. rewrite E, IH. reflexivity.
Qed.

Lemma filter_filter_sub {A : Type} (p q : A -> bool) (l : list A) :
  (forall x, p x = true -> q x = true) ->
  List.filter p (List.filter q l) = List.filter p l.
Proof.
  intros H. induction l as [|x t IH]; [reflexivity|].
  cbn [List.filter]. destruct (q x) eqn:Eq.
  - cbn [List.filter]. rewrite IH. reflexivity.
  - destruct (p x) eqn:Ep; [|exact IH].
    rewrite (H x Ep) in Eq. discriminate.
Qed.

Lemma is_digit_alnum (c : ascii) : is_digit c = true -> is_alnum c = true.
Proof. unfold is_alnum. intros ->. apply orb_true_r. Qed.

Lemma is_lower_alnum (c : ascii) : is_lower c = true -> is_alnum c = true.
Proof. unfold is_alnum. intros ->. reflexivity. Qed.

Lemma letter_not_digit (c : ascii) :
  is_lower c || is_upper c = true -> is_digit c = false.
Proof. all_chars c; intros H; try discriminate H; reflexivity. Qed.

Lemma existsb_letter_not_digits (s : str) :
  existsb (fun c => is_lower c || is_upper c) s = true ->
  forallb is_digit s = false.
Proof.
  induction s as [|c t IH]; cbn [existsb forallb]; [discriminate|].
  intros H. apply orb_prop in H. destruct H as [H|H].
  - rewrite (letter_not_digit c H). reflexivity.
  - rewrite (IH H). apply andb_false_r.
Qed.

(** The dispatcher, in one equation. *)
Lemma cnpj_isValid_dispatch (s : str) :
  Cnpj.isValid s
  = (length (List.filter is_alnum s) =? 14)%nat
    && (if forallb is_digit (List.filter is_alnum s)
        then Numeric.validateNumeric (List.filter is_alnum s)
        else Alfanumeric.validateAlphanumeric (List.filter is_alnum s)).
Proof.
  unfold Cnpj.isValid, Constants.CNPJ_LENGTH.
  destruct (length (List.filter is_alnum s) =? 14)%nat eqn:E; [|reflexivity].
  pose proof (forallb_filter is_alnum s) as Ha.
  destruct (List.filter is_alnum s) as [|c t]; [discriminate E|].
  unfold Cnpj.isNumeric, Cnpj.isAlfanumeric. rewrite Ha. reflexivity.
Qed.

Lemma cnpj_routes_numeric (s : str) :
  length (List.filter is_alnum s) = 14%nat ->
  forallb is_digit (List.filter is_alnum s) = true ->
  Cnpj.isValid s = Numeric.validateNumeric (List.filter is_alnum s).
Proof. intros H Hd. rewrite cnpj_isValid_dispatch, Hd, H. reflexivity. Qed.

Lemma cnpj_routes_alphanumeric (s : str) :
  length (List.filter is_alnum s) = 14%nat ->
  existsb (fun c => is_lower c || is_upper c) (List.filter is_alnum s) = true ->
  Cnpj.isValid s = Alfanumeric.validateAlphanumeric (List.filter is_alnum s).
Proof.
  intros H Hl. rewrite cnpj_isValid_dispatch, H.
  rewrite (existsb_letter_not_digits _ Hl). reflexivity.
Qed.

(** The claim C9 as stated does not hold: a valid alphanumeric CNPJ of
    14 characters with exactly three letters is accepted by
    [cpf.isValid] when its eleven digits form a valid CPF. *)
Lemma cnpj_string_accepted_by_cpf :
  length (lit "ABC24563156426") = 14%nat
  /\ Cnpj.isValid (lit "ABC24563156426") = true
  /\ Cpf.isValid (lit "ABC24563156426") = true.
Proof. vm_compute. repeat split. Qed.

(** C9, amended. [cnpj.isValid] removes every character that is not a
    letter or a digit and returns false when the result does not have
    length 14, so a CPF of eleven digits is rejected; at length 14 it
    hands all-digit strings to the numeric validator and strings with a
    letter to the alphanumeric one.  [cpf.isValid] rejects every string
    whose number of digits is not 11, among them the 14-digit CNPJ. *)
Theorem cnpj_dispatcher (s : str) :
  let cleaned := List.filter is_alnum s in
  forallb is_alnum cleaned = true
  /\ (length cleaned <> 14%nat -> Cnpj.isValid s = false)
  /\ (length cleaned = 11%nat -> Cnpj.isValid s = false)
  /\ (length cleaned = 14%nat -> forallb is_digit cleaned = true ->
      Cnpj.isValid s = Numeric.validateNumeric cleaned)
  /\ (length cleaned = 14%nat ->
      existsb (fun c => is_lower c || is_upper c) cleaned = true ->
      Cnpj.isValid s = Alfanumeric.validateAlphanumeric cleaned)
  /\ (length (Cpf.cleanCPF s) <> 11%nat -> Cpf.isValid s = false)
  /\ (length cleaned = 14%nat -> forallb is_digit cleaned = true ->
      Cpf.isValid s = false).
Proof.
  intros cleaned. subst cleaned.
  assert (Hlen : length (List.filter is_alnum s) <> 14%nat -> Cnpj.isValid s = false).
  { intros H. rewrite cnpj_isValid_dispatch.
    apply Nat.eqb_neq in H. rewrite H. reflexivity. }
  assert (Hcpf : length (Cpf.cleanCPF s) <> 11%nat -> Cpf.isValid s = false).
  { apply cpf_isValid_length. }
  split; [apply forallb_filter|].
  split; [exact Hlen|].
  split; [intros H; apply Hlen; lia|].
  split; [|split; [|split; [exact Hcpf|]]].
  - apply cnpj_routes_numeric.
  - apply cnpj_routes_alphanumeric.
  - intros H Hd. apply Hcpf. unfold Cpf.cleanCPF.
    rewrite <- (filter_filter_sub is_digit is_alnum s is_digit_alnum).
    rewrite (filter_all _ _ Hd), H. discriminate.
Qed.

Lemma cnpj_dispatcher_witness :
  Cnpj.isValid (lit "295.379.955-93") = false
  /\ Cnpj.isValid (lit "54.550.752/0001-55")
     = Numeric.validateNumeric (lit "54550752000155")
  /\ Cnpj.isValid (lit "12.ABC.345/01DE-35")
     = Alfanumeric.validateAlphanumeric (lit "12ABC34501DE35")
  /\ Cpf.isValid (lit "54.550.752/0001-55") = false.
Proof.
  destruct (cnpj_dispatcher (lit "295.379.955-93")) as (_ & _ & H1 & _).
  destruct (cnpj_dispatcher (lit "54.550.752/0001-55")) as (_ & _ & _ & H2 & _ & _ & H4).
  destruct (cnpj_dispatcher (lit "12.ABC.345/01DE-35")) as (_ & _ & _ & _ & H3 & _).
  split; [|split; [|split]].
  - apply H1. reflexivity.
  - apply H2; reflexivity.
  - apply H3; reflexivity.
  - apply H4; reflexivity.
Defined.

(** ** C10: case sensitivity *)

Lemma lower_value_zero (c : ascii) :
  is_lower c = true -> Alfanumeric.convertItem c = Num 0.
Proof. all_chars c; intros H; try discriminate H; vm_compute; reflexivity. Qed.

(** C10. The cleaning of [cnpj.isValid] keeps the lowercase letters as
    they are; an input of cleaned length 14 with a lowercase letter goes
    to the alphanumeric validator, where a lowercase letter is worth 0;
    hence the lowercased form of a valid alphanumeric CNPJ can be
    invalid. *)
Theorem cnpj_isValid_case_sensitive (s : str) :
  let cleaned := List.filter is_alnum s in
  List.filter is_lower cleaned = List.filter is_lower s
  /\ (length cleaned = 14%nat -> existsb is_lower cleaned = true ->
      Cnpj.isValid s = Alfanumeric.validateAlphanumeric cleaned)
  /\ (forall c, is_lower c = true -> Alfanumeric.convertItem c = Num 0)
  /\ (exists d, existsb is_upper d = true
                /\ Cnpj.isValid d = true
                /\ Cnpj.isValid (Spec.toLowerCase d) = false).
Proof.
  intros cleaned. subst cleaned.
  split; [apply filter_filter_sub, is_lower_alnum|].
  split; [|split; [exact lower_value_zero|]].
  - intros H Hl. apply cnpj_routes_alphanumeric; [exact H|].
    clear H. induction (List.filter is_alnum s) as [|c t IH];
      cbn [existsb] in *; [discriminate|].
    apply orb_prop in Hl. destruct Hl as [Hl|Hl].
    + rewrite Hl. reflexivity.
    + rewrite (IH Hl). apply orb_true_r.
  - exists (lit "12ABC34501DE35"). vm_compute. repeat split.
Qed.

Lemma cnpj_isValid_case_sensitive_witness :
  Cnpj.isValid (lit "12.abc.345/01de-35")
  = Alfanumeric.validateAlphanumeric (lit "12abc34501de35").
Proof.
  destruct (cnpj_isValid_case_sensitive (lit "12.abc.345/01de-35")) as (_ & H & _).
  apply H; reflexivity.
Defined.

(** ** C8: the comparison of the alphanumeric validator *)

Lemma alnum_not_blank (a : ascii) :
  is_alnum a = true ->
  is_space a = false /\ Ascii.eqb a "-" = false /\ Ascii.eqb a "+" = false
  /\ (is_digit a = false -> Ascii.eqb a "0" = false).
Proof.
  all_chars a; intros H; try discriminate H; repeat split;
    intros H'; try discriminate H'; reflexivity.
Qed.

(** [parseInt] on two characters of which the first is a letter or a
    digit: [NaN] when it is a letter, the digits read up to the first
    character that is not one otherwise, except that [0x] and [0X] are
    the prefix of an empty hexadecimal number. *)
Lemma parseInt_pair (a b : ascii) :
  is_alnum a = true ->
  parseInt [a; b]
  = if is_digit a then
      if Ascii.eqb a "0" && (Ascii.eqb b "x" || Ascii.eqb b "X") then NaN
      else if is_digit b then Num (10 * digit_value a + digit_value b)
           else Num (digit_value a)
    else NaN.
Proof.
  intros Ha. destruct (alnum_not_blank a Ha) as [Hs [Hm [Hp H0]]].
  unfold parseInt. cbn [trim_start]. rewrite Hs, Hm, Hp.
  destruct (is_digit a) eqn:Ed.
  - destruct (Ascii.eqb a "0" && (Ascii.eqb b "x" || Ascii.eqb b "X")) eqn:Ex.
    + reflexivity.
    + cbn [parse_digits]. unfold radix_digit at 1. rewrite Ed.
      cbn [parse_digits]. unfold radix_digit.
      destruct (is_digit b) eqn:Eb.
      * f_equal. lia.
      * change (10 =? 16) with false. cbn [andb]. f_equal. lia.
  - rewrite (H0 eq_refl). cbn [andb parse_digits]. unfold radix_digit.
    rewrite Ed. reflexivity.
Qed.

Lemma mod11_digit_range (x : Z) : Spec.digit_range (Spec.mod11_digit x).
Proof.
  unfold Spec.digit_range, Spec.mod11_digit.
  pose proof (Z.mod_pos_bound x 11 ltac:(lia)).
  destruct (x mod 11 <? 2) eqn:E; [lia|]. apply Z.ltb_ge in E. lia.
Qed.

Lemma parseInt_digits (d1 d2 : Z) :
  Spec.digit_range d1 -> Spec.digit_range d2 ->
  parseInt (toString (Num d1) ++ toString (Num d2)) = Num (10 * d1 + d2)
  /\ parseInt [Spec.digit_char d1; Spec.digit_char d2] = Num (10 * d1 + d2).
Proof.
  intros H1 H2. all_digits H1; all_digits H2; split; reflexivity.
Qed.

(** The two check digits of the alphanumeric engine on a list of values. *)
Lemma alfanumeric_check_digits_values (values : list Z) :
  Forall (fun v => 0 <= v) values ->
  Alfanumeric.calculateCheckDigits (map Alfanumeric.INum (map Num values))
  = (Num (Spec.mod11_digit (Spec.cnpj_weighted_sum values)),
     Num (Spec.mod11_digit
            (Spec.cnpj_weighted_sum
               (values ++ [Spec.mod11_digit (Spec.cnpj_weighted_sum values)])))).
Proof.
  intros H. unfold Alfanumeric.calculateCheckDigits.
  assert (E : forall l, Forall (fun v => 0 <= v) l ->
                        Alfanumeric.calculateCheckDigit (map Alfanumeric.INum (map Num l))
                        = Num (Spec.mod11_digit (Spec.cnpj_weighted_sum l))).
  { intros l Hl. rewrite alfanumeric_calculateCheckDigit_numeric, map_map.
    cbn [Alfanumeric.numericDigit]. rewrite map_id.
    rewrite numeric_calculateCheckDigit_num, cnpj_cd_spec by exact Hl.
    reflexivity. }
  rewrite (E values H).
  change [Alfanumeric.INum (Num (Spec.mod11_digit (Spec.cnpj_weighted_sum values)))]
    with (map Alfanumeric.INum
              (map Num [Spec.mod11_digit (Spec.cnpj_weighted_sum values)])).
  rewrite <- !map_app, E; [reflexivity|].
  apply Forall_app. split; [exact H|].
  constructor; [|constructor].
  pose proof (mod11_digit_range (Spec.cnpj_weighted_sum values)) as R.
  unfold Spec.digit_range in R. lia.
Qed.

Lemma char_values_nonneg (s : str) :
  Forall (fun v => 0 <= v) (map Spec.char_value s).
Proof.
  apply List.Forall_forall. intros x Hx. apply in_map_iff in Hx.
  destruct Hx as [c [<- _]]. apply char_value_nonneg.
Qed.

Lemma convertCnpj_values (s : str) :
  Alfanumeric.convertCnpj s = map Num (map Spec.char_value s).
Proof.
  unfold Alfanumeric.convertCnpj. rewrite map_map.
  apply map_ext, convertItem_value.
Qed.

(** The alphanumeric validator on a string of 14 characters. *)
Lemma validateAlphanumeric_14 (s : str) :
  length s = 14%nat ->
  let values := map Spec.char_value (firstn 12 s) in
  let dv1 := Spec.mod11_digit (Spec.cnpj_weighted_sum values) in
  let dv2 := Spec.mod11_digit (Spec.cnpj_weighted_sum (values ++ [dv1])) in
  Alfanumeric.validateAlphanumeric s
  = strict_eq (parseInt (skipn 12 s)) (Num (10 * dv1 + dv2)).
Proof.
  intros Hlen values dv1 dv2.
  unfold Alfanumeric.validateAlphanumeric, Constants.CNPJ_LENGTH, slice_to, slice_last.
  rewrite Hlen. cbn [Nat.eqb Nat.sub].
  rewrite convertCnpj_values, alfanumeric_check_digits_values
    by apply char_values_nonneg.
  fold values. fold dv1. fold dv2.
  rewrite (proj1 (parseInt_digits dv1 dv2 (mod11_digit_range _) (mod11_digit_range _))).
  reflexivity.
Qed.

Lemma leading_integer_pair (a b : ascii) :
  Spec.leading_integer [a; b]
  = if is_digit a then
      if is_digit b then Num (10 * digit_value a + digit_value b)
      else Num (digit_value a)
    else NaN.
Proof.
  unfold Spec.leading_integer. cbn [parse_digits]. unfold radix_digit.
  change (10 =? 16) with false. cbn [andb].
  destruct (is_digit a); [|reflexivity].
  cbn [parse_digits]. destruct (is_digit b); f_equal; lia.
Qed.

(** The claim C8 as stated does not hold of the pairs "0x" and "0X".
    Read up to the first character that is not a digit, "0X" is the
    integer 0, which is also the integer of the computed digits 0 and 0;
    but [parseInt] takes "0X" for the prefix of a hexadecimal number that
    has no digit, returns [NaN], and the validator rejects the input. *)
Lemma hex_prefix_pair_rejected :
  let s := lit "12ABC34501510X" in
  length s = 14%nat
  /\ forallb is_alnum s = true
  /\ Alfanumeric.calculateCheckDigits
       (map Alfanumeric.INum (Alfanumeric.convertCnpj (slice_to 12 s)))
     = (Num 0, Num 0)
  /\ Spec.leading_integer (slice_last 2 s) = Num 0
  /\ Spec.leading_integer (toString (Num 0) ++ toString (Num 0)) = Num 0
  /\ parseInt (slice_last 2 s) = NaN
  /\ Alfanumeric.validateAlphanumeric s = false.
Proof. vm_compute. repeat split. Qed.

(** C8, amended. On a cleaned input of 14 characters,
    [validateAlphanumeric] recomputes the two check digits from the first
    twelve characters and accepts exactly when [parseInt] of the last two
    characters is the integer [parseInt] reads from the two computed
    digits.  [parseInt] reads the digits up to the first character that is
    not one and yields [NaN] when the pair starts with a letter, and also
    when the pair is "0x" or "0X".  The comparison is between parsed
    integers, not between characters: "0A" is accepted where the computed
    digits are 0 and 0. *)
Theorem alphanumeric_check_comparison (s : str) :
  length s = 14%nat -> forallb is_alnum s = true ->
  let values := map Spec.char_value (firstn 12 s) in
  let dv1 := Spec.mod11_digit (Spec.cnpj_weighted_sum values) in
  let dv2 := Spec.mod11_digit (Spec.cnpj_weighted_sum (values ++ [dv1])) in
  Alfanumeric.calculateCheckDigits
    (map Alfanumeric.INum (Alfanumeric.convertCnpj (slice_to 12 s)))
  = (Num dv1, Num dv2)
  /\ parseInt (toString (Num dv1) ++ toString (Num dv2)) = Num (10 * dv1 + dv2)
  /\ Alfanumeric.validateAlphanumeric s
     = strict_eq (parseInt (slice_last 2 s))
                 (parseInt (toString (Num dv1) ++ toString (Num dv2)))
  /\ (Alfanumeric.validateAlphanumeric s = true
      <-> parseInt (slice_last 2 s) = Num (10 * dv1 + dv2))
  /\ (exists a b,
        slice_last 2 s = [a; b]
        /\ parseInt [a; b]
           = (if Ascii.eqb a "0" && (Ascii.eqb b "x" || Ascii.eqb b "X") then NaN
              else Spec.leading_integer [a; b])
        /\ (is_digit a = false -> Alfanumeric.validateAlphanumeric s = false))
  /\ (Alfanumeric.validateAlphanumeric (lit "12ABC34501510A") = true
      /\ Alfanumeric.calculateCheckDigits
           (map Alfanumeric.INum (Alfanumeric.convertCnpj (lit "12ABC3450151")))
         = (Num 0, Num 0)).
Proof.
  intros Hlen Halnum values dv1 dv2.
  pose proof (validateAlphanumeric_14 s Hlen) as Hv. cbv zeta in Hv.
  fold values in Hv. fold dv1 in Hv. fold dv2 in Hv.
  pose proof (parseInt_digits dv1 dv2 (mod11_digit_range _) (mod11_digit_range _))
    as [Hp _].
  assert (Hlast : slice_last 2 s = skipn 12 s).
  { unfold slice_last. rewrite Hlen. reflexivity. }
  split; [|split; [exact Hp|split; [|split; [|split]]]].
  - unfold slice_to. rewrite convertCnpj_values.
    apply alfanumeric_check_digits_values, char_values_nonneg.
  - rewrite Hp, Hlast. exact Hv.
  - rewrite Hv, Hlast. unfold strict_eq.
    destruct (parseInt (skipn 12 s)) as [|z]; split; try discriminate.
    + intros E. apply Z.eqb_eq in E. rewrite E. reflexivity.
    + intros E. injection E as ->. apply Z.eqb_refl.
  - rewrite Hv, Hlast. clear Hv.
    do 14 (destruct s as [|? s]; [discriminate Hlen|]).
    destruct s; [|discriminate Hlen].
    cbn [skipn]. eexists _, _. split; [reflexivity|].
    match goal with
    | |- parseInt [?a; ?b] = _ /\ _ =>
        assert (Ha : is_alnum a = true)
    end.
    { cbn [forallb] in Halnum.
      repeat (apply andb_prop in Halnum; destruct Halnum as [? Halnum]).
      assumption. }
    rewrite (parseInt_pair _ _ Ha), leading_integer_pair. split.
    + match goal with
      | |- context [is_digit ?a] => destruct (is_digit a) eqn:Ed
      end; [reflexivity|].
      rewrite (proj2 (proj2 (proj2 (alnum_not_blank _ Ha))) Ed). reflexivity.
    + intros ->. reflexivity.
  - vm_compute. split; reflexivity.
Qed.

Lemma alphanumeric_check_comparison_witness :
  Alfanumeric.validateAlphanumeric (lit "12ABC34501DE35") = true
  <-> parseInt (slice_last 2 (lit "12ABC34501DE35")) = Num 35.
Proof.
  destruct (alphanumeric_check_comparison (lit "12ABC34501DE35"))
    as (_ & _ & _ & H & _); [reflexivity | reflexivity |].
  exact H.
Defined.

(** ** The generators *)

Lemma returns_ret {A : Type} (a : A) (P : A -> Prop) :
  P a -> Aux.returns (Rand.ret a) P.
Proof. intros H g Hg. split; assumption. Qed.

Lemma returns_bind {A B : Type} (m : Rand.M A) (k : A -> Rand.M B)
      (P : A -> Prop) (Q : B -> Prop) :
  Aux.returns m P -> (forall a, P a -> Aux.returns (k a) Q) ->
  Aux.returns (Rand.bind m k) Q.
Proof.
  intros Hm Hk g Hg. unfold Rand.bind.
  destruct (Hm g Hg) as [Ha Hg']. destruct (m g) as [a g'].
  apply (Hk a Ha g' Hg').
Qed.

Lemma returns_weaken {A : Type} (m : Rand.M A) (P Q : A -> Prop) :
  Aux.returns m P -> (forall a, P a -> Q a) -> Aux.returns m Q.
Proof.
  intros Hm H g Hg. destruct (Hm g Hg) as [Ha Hg']. split; auto.
Qed.

Lemma returns_random :
  Aux.returns Rand.random (fun r => (0 <= r)%Q /\ (r < 1)%Q).
Proof.
  intros g Hg. split; [apply Hg|]. intros n. apply Hg.
Qed.

Lemma floor_scaled (r : Q) (k : Z) :
  (0 <= r)%Q -> (r < 1)%Q -> 0 < k -> 0 <= Qfloor (r * inject_Z k) < k.
Proof.
  intros H0 H1 Hk.
  assert (Hq : (inject_Z 0 < inject_Z k)%Q) by (rewrite <- Zlt_Qlt; exact Hk).
  split.
  - change 0 with (Qfloor (inject_Z 0)). apply Qfloor_resp_le.
    apply Qmult_le_0_compat; [exact H0|]. apply Qlt_le_weak, Hq.
  - rewrite Zlt_Qlt.
    apply Qle_lt_trans with (r * inject_Z k)%Q; [apply Qfloor_le|].
    rewrite <- (Qmult_1_l (inject_Z k)) at 2.
    apply Qmult_lt_compat_r; assumption.
Qed.

Lemma returns_random_below (k : Z) :
  0 < k ->
  Aux.returns (Rand.random_below k) (fun x => exists d, x = Num d /\ 0 <= d < k).
Proof.
  intros Hk. unfold Rand.random_below.
  apply (returns_bind _ _ _ _ returns_random).
  intros r [H0 H1]. apply returns_ret.
  eexists. split; [reflexivity|]. apply floor_scaled; assumption.
Qed.

Lemma returns_array_from {A : Type} (m : Rand.M A) (P : A -> Prop) (n : nat) :
  Aux.returns m P ->
  Aux.returns (Rand.array_from n m) (fun l => length l = n /\ Forall P l).
Proof.
  intros Hm. induction n as [|n IH]; cbn [Rand.array_from].
  - apply returns_ret. split; [reflexivity|constructor].
  - apply (returns_bind _ _ _ _ Hm). intros x Hx.
    apply (returns_bind _ _ _ _ IH). intros l [Hl HP].
    apply returns_ret. split; [simpl; lia|]. constructor; assumption.
Qed.

Lemma forall_num (P : Z -> Prop) (l : list num) :
  Forall (fun x => exists d, x = Num d /\ P d) l ->
  exists ds, l = map Num ds /\ Forall P ds.
Proof.
  induction 1 as [|x t [d [-> Hd]] _ [ds [-> Hds]]].
  - exists []. split; [reflexivity|constructor].
  - exists (d :: ds). split; [reflexivity|]. constructor; assumption.
Qed.

Lemma returns_digits (n : nat) :
  Aux.returns (Rand.array_from n (Rand.random_below 10))
              (fun l => exists base, l = map Num base /\ length base = n
                                     /\ Forall Spec.digit_range base).
Proof.
  eapply returns_weaken.
  - apply returns_array_from, (returns_random_below 10). lia.
  - intros l [Hlen Hl]. cbv beta in Hl.
    destruct (forall_num (fun d => 0 <= d < 10) l Hl) as [base [-> Hb]].
    exists base. rewrite length_map in Hlen. repeat split; [exact Hlen|].
    revert Hb. apply List.Forall_impl. unfold Spec.digit_range. intros; lia.
Qed.

(** The documents [cpf.generate] produces. *)
Lemma cpf_generate_shape (options : option Cpf.CPFOptions) :
  Aux.returns (Cpf.generate options)
    (fun x => exists base,
         length base = 9%nat /\ Forall Spec.digit_range base
         /\ let d := map Spec.digit_char
                        (base ++ [Aux.cpf_cd base;
                                  Aux.cpf_cd (base ++ [Aux.cpf_cd base])]) in
            x = if truthy (options ≫= Cpf.formatted) then Cpf.format d else d).
Proof.
  unfold Cpf.generate, Cpf.generateBaseCPF.
  apply (returns_bind _ _ _ _ (returns_digits 9)).
  intros l [base [-> [Hlen Hb]]]. apply returns_ret.
  exists base. split; [exact Hlen|]. split; [exact Hb|]. cbv zeta.
  rewrite cpf_calculateCheckDigit_num.
  change (map Num base ++ [Num (Aux.cpf_cd base)])
    with (map Num base ++ map Num [Aux.cpf_cd base]).
  rewrite <- map_app, cpf_calculateCheckDigit_num.
  change [Num (Aux.cpf_cd base); Num (Aux.cpf_cd (base ++ [Aux.cpf_cd base]))]
    with (map Num [Aux.cpf_cd base; Aux.cpf_cd (base ++ [Aux.cpf_cd base])]).
  rewrite <- map_app.
  assert (Hall : Forall Spec.digit_range
                        (base ++ [Aux.cpf_cd base;
                                  Aux.cpf_cd (base ++ [Aux.cpf_cd base])])).
  { apply Forall_app. split; [exact Hb|].
    constructor; [apply zdigit_range|]. constructor; [apply zdigit_range|constructor]. }
  rewrite (proj1 (digit_string _ Hall)). reflexivity.
Qed.

(** The documents the numeric generator produces. *)
Lemma numeric_generate_shape :
  Aux.returns Numeric.generateNumeric
    (fun x => exists base,
         length base = 12%nat /\ Forall Spec.digit_range base
         /\ x = map Spec.digit_char
                    (base ++ [Aux.cnpj_cd base;
                              Aux.cnpj_cd (base ++ [Aux.cnpj_cd base])])).
Proof.
  unfold Numeric.generateNumeric, Numeric.generateBaseNumeric.
  apply (returns_bind _ _ _ _ (returns_digits 12)).
  intros l [base [-> [Hlen Hb]]]. unfold Numeric.calculateCheckDigits.
  apply returns_ret.
  exists base. split; [exact Hlen|]. split; [exact Hb|].
  rewrite numeric_calculateCheckDigit_num.
  change (map Num base ++ [Num (Aux.cnpj_cd base)])
    with (map Num base ++ map Num [Aux.cnpj_cd base]).
  rewrite <- map_app, numeric_calculateCheckDigit_num.
  change [Num (Aux.cnpj_cd base); Num (Aux.cnpj_cd (base ++ [Aux.cnpj_cd base]))]
    with (map Num [Aux.cnpj_cd base; Aux.cnpj_cd (base ++ [Aux.cnpj_cd base])]).
  rewrite <- map_app.
  assert (Hall : Forall Spec.digit_range
                        (base ++ [Aux.cnpj_cd base;
                                  Aux.cnpj_cd (base ++ [Aux.cnpj_cd base])])).
  { apply Forall_app. split; [exact Hb|].
    constructor; [apply zdigit_range|]. constructor; [apply zdigit_range|constructor]. }
  rewrite (proj1 (digit_string _ Hall)). reflexivity.
Qed.

Lemma alphabet_charAt (i : Z) :
  0 <= i < Z.of_nat (length Constants.ALPHABET) ->
  exists c, charAt Constants.ALPHABET (Num i) = [c] /\ is_upper c = true.
Proof.
  intros H. change (Z.of_nat (length Constants.ALPHABET)) with 26 in H.
  rewrite <- (Z2Nat.id i) by lia.
  assert (Hn : (Z.to_nat i < 26)%nat) by lia.
  revert Hn. generalize (Z.to_nat i) as n. intros n Hn.
  do 26 (destruct n as [|n]; [eexists; split; reflexivity|]). lia.
Qed.

Lemma returns_base_item : Aux.returns Alfanumeric.generateBaseItem Aux.base_item.
Proof.
  unfold Alfanumeric.generateBaseItem.
  apply (returns_bind _ _ _ _ returns_random). intros r _.
  destruct (Qlt_le_dec r (1 # 2)).
  - apply (returns_bind _ _ _ _ (returns_random_below 10 ltac:(lia))).
    intros x [d [-> Hd]]. apply returns_ret. left. exists d.
    split; [reflexivity|]. unfold Spec.digit_range. lia.
  - apply (returns_bind _ _ _ _
             (returns_random_below (Z.of_nat (length Constants.ALPHABET))
                                   ltac:(reflexivity))).
    intros x [i [-> Hi]]. apply returns_ret. right.
    destruct (alphabet_charAt i Hi) as [c [-> Hc]]. exists c. split; [reflexivity|exact Hc].
Qed.

Lemma upper_char_props (c : ascii) :
  is_upper c = true ->
  Alfanumeric.convertLetterToNumber [c] = Num (Z.of_N (code c) - 48)
  /\ 0 <= Z.of_N (code c) - 48
  /\ is_alnum c = true
  /\ is_digit c = false
  /\ Spec.char_value c = Z.of_N (code c) - 48.
Proof.
  all_chars c; intros H; try discriminate H; vm_compute;
    repeat split; discriminate.
Qed.

(** What the proofs need to know of an element of a generated base. *)
Lemma base_item_props (x : Alfanumeric.item) :
  Aux.base_item x ->
  Alfanumeric.numericDigit x = Num (Aux.item_val x)
  /\ 0 <= Aux.item_val x
  /\ Alfanumeric.item_toString x = [Aux.item_char x]
  /\ is_alnum (Aux.item_char x) = true
  /\ Spec.char_value (Aux.item_char x) = Aux.item_val x
  /\ (is_digit (Aux.item_char x) = true ->
      Spec.digit_range (Aux.item_val x)
      /\ Aux.item_char x = Spec.digit_char (Aux.item_val x)).
Proof.
  intros [[d [-> Hd]] | [c [-> Hc]]].
  - destruct (digit_char_props d Hd) as [E1 [E2 [_ [E4 [E5 _]]]]].
    cbn [Alfanumeric.numericDigit Aux.item_val Alfanumeric.item_toString Aux.item_char].
    split; [reflexivity|]. split; [unfold Spec.digit_range in Hd; lia|].
    split; [exact E4|]. split; [exact E5|].
    split; [unfold Spec.char_value; rewrite E1; exact E2|].
    intros _. split; [exact Hd|reflexivity].
  - destruct (upper_char_props c Hc) as [E1 [E2 [E3 [E4 E5]]]].
    cbn [Alfanumeric.numericDigit Aux.item_val Alfanumeric.item_toString Aux.item_char].
    split; [exact E1|]. split; [exact E2|]. split; [reflexivity|].
    split; [exact E3|]. split; [exact E5|].
    rewrite E4. discriminate.
Qed.

Lemma base_items_props (base : list Alfanumeric.item) :
  Forall Aux.base_item base ->
  map Alfanumeric.numericDigit base = map Num (map Aux.item_val base)
  /\ Forall (fun v => 0 <= v) (map Aux.item_val base)
  /\ concat (map Alfanumeric.item_toString base) = map Aux.item_char base
  /\ forallb is_alnum (map Aux.item_char base) = true
  /\ map Spec.char_value (map Aux.item_char base) = map Aux.item_val base
  /\ (forallb is_digit (map Aux.item_char base) = true ->
      Forall Spec.digit_range (map Aux.item_val base)
      /\ map Aux.item_char base = map Spec.digit_char (map Aux.item_val base)).
Proof.
  induction 1 as [|x t Hx _ [IH1 [IH2 [IH3 [IH4 [IH5 IH6]]]]]].
  - repeat split; constructor.
  - destruct (base_item_props x Hx) as [E1 [E2 [E3 [E4 [E5 E6]]]]].
    cbn [map concat forallb]. rewrite E1, E3, E4, E5, IH1, IH3, IH4, IH5.
    split; [reflexivity|]. split; [constructor; assumption|].
    split; [reflexivity|]. split; [reflexivity|]. split; [reflexivity|].
    intros H. apply andb_prop in H. destruct H as [Hd Ht].
    destruct (E6 Hd) as [R1 R2]. destruct (IH6 Ht) as [R3 R4].
    split; [constructor; assumption|]. rewrite <- R2, <- R4. reflexivity.
Qed.

(** ** C6: the weights of the CNPJ *)

(** C6. Both CNPJ engines weight the elements from the rightmost one
    leftward with 2, 3, ..., 9, 2, 3, ... and return 0 when the weighted
    sum modulo 11 is less than 2, else 11 minus that remainder.  For the
    alphanumeric engine the elements are those of a base, digits as
    numbers and uppercase letters as strings of one character, and the
    sum is that of their values: the digit itself, the ASCII code minus
    48 for a letter. *)
Theorem cnpj_check_digit_weighting
        (l : list Z) (items : list Alfanumeric.item) :
  Forall Spec.digit_range l ->
  Forall Aux.base_item items ->
  Numeric.calculateCheckDigit (map Num l)
  = Num (Spec.mod11_digit (Spec.cnpj_weighted_sum l))
  /\ Alfanumeric.calculateCheckDigit items
     = Num (Spec.mod11_digit (Spec.cnpj_weighted_sum (map Aux.item_val items)))
  /\ map Aux.item_val items = map Spec.char_value (map Aux.item_char items)
  /\ Spec.cnpj_weight 0 = 2
  /\ (forall j, Spec.cnpj_weight (S j)
                = if Spec.cnpj_weight j =? 9 then 2 else Spec.cnpj_weight j + 1).
Proof.
  intros Hl Hitems.
  destruct (base_items_props items Hitems) as [E1 [Hnn [_ [_ [E5 _]]]]].
  split; [|split; [|split; [|split]]].
  - rewrite numeric_calculateCheckDigit_num, cnpj_cd_spec; [reflexivity|].
    apply digit_range_nonneg, Hl.
  - rewrite alfanumeric_calculateCheckDigit_numeric, E1,
      numeric_calculateCheckDigit_num, cnpj_cd_spec by exact Hnn.
    reflexivity.
  - symmetry. exact E5.
  - reflexivity.
  - exact cnpj_weight_succ.
Qed.

Lemma cnpj_check_digit_weighting_witness :
  Numeric.calculateCheckDigit (map Num [5; 4; 5; 5; 0; 7; 5; 2; 0; 0; 0; 1])
  = Num 5
  /\ Alfanumeric.calculateCheckDigit
       [Alfanumeric.INum (Num 1); Alfanumeric.INum (Num 2);
        Alfanumeric.IStr (lit "A"); Alfanumeric.IStr (lit "B");
        Alfanumeric.IStr (lit "C"); Alfanumeric.INum (Num 3);
        Alfanumeric.INum (Num 4); Alfanumeric.INum (Num 5);
        Alfanumeric.INum (Num 0); Alfanumeric.INum (Num 1);
        Alfanumeric.IStr (lit "D"); Alfanumeric.IStr (lit "E")]
     = Num 3.
Proof.
  pose proof (cnpj_check_digit_weighting
                [5; 4; 5; 5; 0; 7; 5; 2; 0; 0; 0; 1]
                [Alfanumeric.INum (Num 1); Alfanumeric.INum (Num 2);
                 Alfanumeric.IStr (lit "A"); Alfanumeric.IStr (lit "B");
                 Alfanumeric.IStr (lit "C"); Alfanumeric.INum (Num 3);
                 Alfanumeric.INum (Num 4); Alfanumeric.INum (Num 5);
                 Alfanumeric.INum (Num 0); Alfanumeric.INum (Num 1);
                 Alfanumeric.IStr (lit "D"); Alfanumeric.IStr (lit "E")]) as H.
  destruct H as [H1 [H2 _]].
  - repeat (constructor; [split; discriminate|]). constructor.
  - repeat (constructor;
            [first [ left; eexists; split; [reflexivity|split; discriminate]
                   | right; eexists; split; reflexivity ]|]).
    constructor.
  - split; [exact H1|exact H2].
Defined.

(** The documents the alphanumeric generator produces. *)
Lemma alfanumeric_generate_shape :
  Aux.returns Alfanumeric.generateAlphanumeric
    (fun x => exists base,
         length base = 12%nat /\ Forall Aux.base_item base
         /\ let values := map Aux.item_val base in
            x = map Aux.item_char base
                ++ [Spec.digit_char (Aux.cnpj_cd values);
                    Spec.digit_char (Aux.cnpj_cd (values ++ [Aux.cnpj_cd values]))]).
Proof.
  unfold Alfanumeric.generateAlphanumeric, Alfanumeric.generateBaseAlphanumeric.
  apply (returns_bind _ _ _ _ (returns_array_from _ _ 12 returns_base_item)).
  intros base [Hlen Hb]. unfold Alfanumeric.calculateCheckDigits.
  apply returns_ret. exists base. split; [exact Hlen|]. split; [exact Hb|].
  cbv zeta. destruct (base_items_props base Hb) as [E1 [_ [E3 _]]].
  assert (F1 : Alfanumeric.calculateCheckDigit base
               = Num (Aux.cnpj_cd (map Aux.item_val base))).
  { rewrite alfanumeric_calculateCheckDigit_numeric, E1.
    apply numeric_calculateCheckDigit_num. }
  assert (F2 : forall x,
             Alfanumeric.calculateCheckDigit (base ++ [Alfanumeric.INum (Num x)])
             = Num (Aux.cnpj_cd (map Aux.item_val base ++ [x]))).
  { intros x. rewrite alfanumeric_calculateCheckDigit_numeric, map_app, E1.
    cbn [map Alfanumeric.numericDigit].
    change [Num x] with (map Num [x]).
    rewrite <- map_app. apply numeric_calculateCheckDigit_num. }
  rewrite F1, F2, map_app, concat_app, E3.
  cbn [map concat Alfanumeric.item_toString app].
  rewrite (proj1 (proj2 (proj2 (proj2 (digit_char_props _ (cnpj_cd_range _)))))).
  rewrite (proj1 (proj2 (proj2 (proj2 (digit_char_props _ (cnpj_cd_range _)))))).
  reflexivity.
Qed.

(** ** C1: validity of the generated documents *)

Lemma test_repeated_digit_digits (s : str) :
  test_repeated_digit s = true -> forallb is_digit s = true.
Proof.
  destruct s as [|c l]; [discriminate|]. intros H.
  assert (Hl : is_digit c && forallb (Ascii.eqb c) l = true)
    by (destruct l; [discriminate H|exact H]).
  clear H. apply andb_prop in Hl. destruct Hl as [Hc H].
  cbn [forallb]. rewrite Hc. cbn [andb].
  induction l as [|x l IH]; [reflexivity|].
  cbn [forallb] in *. apply andb_prop in H. destruct H as [Hx Hl].
  apply Ascii.eqb_eq in Hx. subst x. rewrite Hc, (IH Hl). reflexivity.
Qed.

(** A generated CPF is valid unless it is on the blacklist. *)
Lemma cpf_generated_valid (base : list Z) :
  length base = 9%nat -> Forall Spec.digit_range base ->
  let d := map Spec.digit_char
               (base ++ [Aux.cpf_cd base; Aux.cpf_cd (base ++ [Aux.cpf_cd base])]) in
  Cpf.isValid d
  = negb (test_repeated_digit d) && negb (str_eqb d (lit "12345678909")).
Proof.
  intros Hlen Hb d. subst d.
  rewrite cpf_isValid_digits by (try assumption; apply cpf_cd_range).
  rewrite !Z.eqb_refl, !andb_true_r.
  unfold Cpf.isValidFormat, Constants.CPF_LENGTH.
  rewrite length_map, length_app, Hlen. reflexivity.
Qed.

(** A generated CNPJ made of digits is valid unless it repeats one digit. *)
Lemma cnpj_digits_valid (base : list Z) :
  length base = 12%nat -> Forall Spec.digit_range base ->
  let d := map Spec.digit_char
               (base ++ [Aux.cnpj_cd base; Aux.cnpj_cd (base ++ [Aux.cnpj_cd base])]) in
  Cnpj.isValid d = negb (test_repeated_digit d).
Proof.
  intros Hlen Hb d.
  assert (Hall : Forall Spec.digit_range
                        (base ++ [Aux.cnpj_cd base;
                                  Aux.cnpj_cd (base ++ [Aux.cnpj_cd base])])).
  { apply Forall_app. split; [exact Hb|].
    constructor; [apply cnpj_cd_range|]. constructor; [apply cnpj_cd_range|constructor]. }
  destruct (digit_string _ Hall) as [_ [Hd [Ha _]]]. fold d in Hd, Ha.
  assert (Hl : length d = 14%nat).
  { subst d. rewrite length_map, length_app, Hlen. reflexivity. }
  rewrite cnpj_routes_numeric; rewrite (filter_all _ _ Ha); try assumption.
  subst d.
  rewrite numeric_validate_digits by (try assumption; apply cnpj_cd_range).
  rewrite !Z.eqb_refl, !andb_true_r.
  unfold Numeric.isValidFormat, Constants.CNPJ_LENGTH. rewrite Hl. reflexivity.
Qed.

(** A generated alphanumeric CNPJ is valid unless it repeats one digit. *)
Lemma cnpj_items_valid (base : list Alfanumeric.item) :
  length base = 12%nat -> Forall Aux.base_item base ->
  let values := map Aux.item_val base in
  let d := map Aux.item_char base
           ++ [Spec.digit_char (Aux.cnpj_cd values);
               Spec.digit_char (Aux.cnpj_cd (values ++ [Aux.cnpj_cd values]))] in
  Cnpj.isValid d = negb (test_repeated_digit d).
Proof.
  intros Hlen Hb values d.
  destruct (base_items_props base Hb) as [_ [Hnn [_ [Ha [Hv Hd]]]]].
  fold values in Hnn, Hv, Hd.
  destruct (forallb is_digit (map Aux.item_char base)) eqn:E.
  - destruct (Hd eq_refl) as [Hr Hc]. subst d. rewrite Hc.
    change [Spec.digit_char (Aux.cnpj_cd values);
            Spec.digit_char (Aux.cnpj_cd (values ++ [Aux.cnpj_cd values]))]
      with (map Spec.digit_char
                [Aux.cnpj_cd values; Aux.cnpj_cd (values ++ [Aux.cnpj_cd values])]).
    rewrite <- map_app. apply cnpj_digits_valid; [|exact Hr].
    unfold values. rewrite length_map. exact Hlen.
  - assert (Hnd : forallb is_digit d = false).
    { subst d. rewrite forallb_app, E. reflexivity. }
    assert (Hal : forallb is_alnum d = true).
    { subst d. rewrite forallb_app, Ha. cbn [forallb].
      rewrite (proj1 (proj2 (proj2 (proj2 (proj2 (digit_char_props _ (cnpj_cd_range _))))))).
      rewrite (proj1 (proj2 (proj2 (proj2 (proj2 (digit_char_props _ (cnpj_cd_range _))))))).
      reflexivity. }
    assert (Hl : length d = 14%nat).
    { subst d. rewrite length_app, length_map, Hlen. reflexivity. }
    assert (Hlb : length (map Aux.item_char base) = 12%nat)
      by (rewrite length_map; exact Hlen).
    destruct (test_repeated_digit d) eqn:Et.
    { rewrite (test_repeated_digit_digits d Et) in Hnd. discriminate. }
    rewrite cnpj_isValid_dispatch, (filter_all _ _ Hal), Hl, Hnd.
    rewrite (validateAlphanumeric_14 d Hl). subst d.
    rewrite firstn_app, Hlb, firstn_all2 by lia.
    rewrite skipn_app, Hlb, skipn_all2 by lia.
    cbn [Nat.sub firstn skipn app]. rewrite app_nil_r, Hv.
    rewrite <- (cnpj_cd_spec values Hnn).
    rewrite <- cnpj_cd_spec.
    + rewrite (proj2 (parseInt_digits _ _ (cnpj_cd_range _) (cnpj_cd_range _))).
      cbn [strict_eq]. rewrite Z.eqb_refl. reflexivity.
    + apply Forall_app. split; [exact Hnn|]. constructor; [|constructor].
      pose proof (cnpj_cd_range values). lia.
Qed.

(** X4. Round trip, as far as it holds: on every stream of unit draws, a
    generated CPF is valid exactly when it is not one digit repeated and
    not "12345678909", and a generated CNPJ of either kind is valid
    exactly when it is not one digit repeated. *)
Lemma generated_valid_unless_blacklisted (g : Rand.rng) :
  Rand.unit_draws g ->
  (let d := Rand.run (Cpf.generate None) g in
   Cpf.isValid d
   = negb (test_repeated_digit d) && negb (str_eqb d (lit "12345678909")))
  /\ (let d := Rand.run (Cnpj.generate None) g in
      Cnpj.isValid d = negb (test_repeated_digit d))
  /\ (let d := Rand.run (Cnpj.generate
                           (Some {| Cnpj.type := Some Cnpj.numeric;
                                    Cnpj.formatted := None |})) g in
      Cnpj.isValid d = negb (test_repeated_digit d))
  /\ (let d := Rand.run (Cnpj.generate
                           (Some {| Cnpj.type := Some Cnpj.alfanumeric;
                                    Cnpj.formatted := None |})) g in
      Cnpj.isValid d = negb (test_repeated_digit d)).
Proof.
  intros Hg.
  assert (Hn : Cnpj.isValid (fst (Numeric.generateNumeric g))
               = negb (test_repeated_digit (fst (Numeric.generateNumeric g)))).
  { destruct (numeric_generate_shape g Hg) as [[base [Hlen [Hb ->]]] _].
    apply cnpj_digits_valid; assumption. }
  split; [|split; [|split]].
  - cbv zeta. unfold Rand.run.
    destruct (cpf_generate_shape None g Hg) as [[base [Hlen [Hb ->]]] _].
    cbn [truthy mbind option_bind]. apply cpf_generated_valid; assumption.
  - cbv zeta. unfold Rand.run, Cnpj.generate, Rand.bind.
    cbn [mbind option_bind]. destruct (Numeric.generateNumeric g) as [x g'].
    exact Hn.
  - cbv zeta. unfold Rand.run, Cnpj.generate, Rand.bind.
    cbn [mbind option_bind Cnpj.type Cnpj.formatted].
    destruct (Numeric.generateNumeric g) as [x g']. exact Hn.
  - cbv zeta. unfold Rand.run, Cnpj.generate, Rand.bind.
    cbn [mbind option_bind Cnpj.type Cnpj.formatted].
    destruct (alfanumeric_generate_shape g Hg) as [[base [Hlen [Hb E]]] _].
    destruct (Alfanumeric.generateAlphanumeric g) as [x g'].
    cbn [fst Rand.ret truthy] in *. rewrite E.
    apply cnpj_items_valid; assumption.
Qed.

(** C1, at the draws that break it.  When every draw is 0.15 the nine
    digits of the CPF base are all 1 and [cpf.generate] returns
    "11111111111"; when the draws are 0.15, 0.25, ..., 0.95 it returns
    "12345678909"; when every draw is 0 both CNPJ generators return
    "00000000000000".  The validators reject all of them, formatted or
    not. *)
Theorem generate_returns_blacklisted :
  let ones : Rand.rng := fun _ => (15 # 100)%Q in
  let ramp : Rand.rng :=
    fun n => nth n [15 # 100; 25 # 100; 35 # 100; 45 # 100; 55 # 100;
                    65 # 100; 75 # 100; 85 # 100; 95 # 100]%Q 0%Q in
  let zeros : Rand.rng := fun _ => 0%Q in
  let alfa := Some {| Cnpj.type := Some Cnpj.alfanumeric; Cnpj.formatted := None |} in
  Rand.unit_draws ones /\ Rand.unit_draws ramp /\ Rand.unit_draws zeros
  /\ Rand.run (Cpf.generate None) ones = lit "11111111111"
  /\ Cpf.isValid (Rand.run (Cpf.generate None) ones) = false
  /\ Cpf.isValid (Cpf.format (Rand.run (Cpf.generate None) ones)) = false
  /\ Rand.run (Cpf.generate None) ramp = lit "12345678909"
  /\ Cpf.isValid (Rand.run (Cpf.generate None) ramp) = false
  /\ Rand.run (Cnpj.generate None) zeros = lit "00000000000000"
  /\ Cnpj.isValid (Rand.run (Cnpj.generate None) zeros) = false
  /\ Cnpj.isValid (Cnpj.format (Rand.run (Cnpj.generate None) zeros)) = false
  /\ Rand.run (Cnpj.generate alfa) zeros = lit "00000000000000"
  /\ Cnpj.isValid (Rand.run (Cnpj.generate alfa) zeros) = false.
Proof.
  cbv zeta.
  split; [intros n; split; [discriminate|reflexivity]|].
  split.
  { intros n. do 9 (destruct n as [|n]; [split; [discriminate|reflexivity]|]).
    destruct n; split; (discriminate || reflexivity). }
  split; [intros n; split; [discriminate|reflexivity]|].
  vm_compute. repeat split.
Qed.

(** ** C3: sensitivity to a change of the check digits *)

Lemma digits_of_string (s : str) :
  forallb is_digit s = true ->
  Forall Spec.digit_range (map digit_value s)
  /\ s = map Spec.digit_char (map digit_value s).
Proof.
  induction s as [|c t IH]; cbn [forallb map]; [split; [constructor|reflexivity]|].
  intros H. apply andb_prop in H. destruct H as [Hc Ht].
  destruct (is_digit_char c Hc) as [R [E _]]. destruct (IH Ht) as [F1 F2].
  split; [constructor; assumption|]. rewrite <- E, <- F2. reflexivity.
Qed.

(** A base of nine digits has at most one pair of check digits that
    [cpf.isValid] accepts: changing either one invalidates the CPF. *)
Lemma cpf_check_digits_unique (base : list Z) (a b a' b' : Z) :
  length base = 9%nat -> Forall Spec.digit_range base ->
  Spec.digit_range a -> Spec.digit_range b ->
  Spec.digit_range a' -> Spec.digit_range b' ->
  Cpf.isValid (map Spec.digit_char (base ++ [a; b])) = true ->
  Cpf.isValid (map Spec.digit_char (base ++ [a'; b'])) = true ->
  a = a' /\ b = b'.
Proof.
  intros Hlen Hb Ha Hb1 Ha' Hb' V V'.
  rewrite cpf_isValid_digits in V, V' by assumption.
  apply andb_prop in V, V'. destruct V as [V Vb], V' as [V' Vb'].
  apply andb_prop in V, V'. destruct V as [_ Va], V' as [_ Va'].
  apply Z.eqb_eq in Va, Vb, Va', Vb'. split; congruence.
Qed.

(** The same for the CNPJ of either kind, as long as the last two
    characters are digits. *)
Lemma cnpj_check_digits_unique (base : str) (a b a' b' : Z) :
  length base = 12%nat -> forallb is_alnum base = true ->
  Spec.digit_range a -> Spec.digit_range b ->
  Spec.digit_range a' -> Spec.digit_range b' ->
  Cnpj.isValid (base ++ [Spec.digit_char a; Spec.digit_char b]) = true ->
  Cnpj.isValid (base ++ [Spec.digit_char a'; Spec.digit_char b']) = true ->
  a = a' /\ b = b'.
Proof.
  intros Hlen Hal Ha Hb Ha' Hb'.
  assert (K : exists p q,
             forall x y, Spec.digit_range x -> Spec.digit_range y ->
                         Cnpj.isValid (base ++ [Spec.digit_char x; Spec.digit_char y])
                         = true -> x = p /\ y = q).
  {
    destruct (forallb is_digit base) eqn:Ed.
    - destruct (digits_of_string base Ed) as [Hr Hs].
      exists (Aux.cnpj_cd (map digit_value base)),
             (Aux.cnpj_cd (map digit_value base ++ [Aux.cnpj_cd (map digit_value base)])).
      intros x y Hx Hy V. rewrite Hs in V.
      change [Spec.digit_char x; Spec.digit_char y]
        with (map Spec.digit_char [x; y]) in V.
      rewrite <- map_app in V.
      assert (Hall : Forall Spec.digit_range (map digit_value base ++ [x; y])).
      { apply Forall_app. split; [exact Hr|].
        constructor; [exact Hx|]. constructor; [exact Hy|constructor]. }
      destruct (digit_string _ Hall) as [_ [Hd [Ha2 _]]].
      rewrite cnpj_routes_numeric in V; rewrite (filter_all _ _ Ha2) in *;
        [| rewrite length_map, length_app, length_map, Hlen; reflexivity | exact Hd].
      rewrite numeric_validate_digits in V
        by (try assumption; rewrite length_map; exact Hlen).
      apply andb_prop in V. destruct V as [V Vy].
      apply andb_prop in V. destruct V as [_ Vx].
      apply Z.eqb_eq in Vx, Vy. split; assumption.
    - set (values := map Spec.char_value base).
      set (p := Spec.mod11_digit (Spec.cnpj_weighted_sum values)).
      set (q := Spec.mod11_digit (Spec.cnpj_weighted_sum (values ++ [p]))).
      exists p, q. intros x y Hx Hy V.
      assert (Hl : length (base ++ [Spec.digit_char x; Spec.digit_char y]) = 14%nat)
        by (rewrite length_app, Hlen; reflexivity).
      assert (Hal2 : forallb is_alnum (base ++ [Spec.digit_char x; Spec.digit_char y])
                     = true).
      { rewrite forallb_app, Hal. cbn [forallb].
        rewrite (proj1 (proj2 (proj2 (proj2 (proj2 (digit_char_props x Hx)))))).
        rewrite (proj1 (proj2 (proj2 (proj2 (proj2 (digit_char_props y Hy)))))).
        reflexivity. }
      rewrite cnpj_isValid_dispatch, (filter_all _ _ Hal2), Hl in V.
      rewrite forallb_app, Ed in V. cbn [andb Nat.eqb] in V.
      rewrite (validateAlphanumeric_14 _ Hl) in V.
      rewrite firstn_app, Hlen, firstn_all2 in V by lia.
      rewrite skipn_app, Hlen, skipn_all2 in V by lia.
      cbn [Nat.sub firstn skipn app] in V. rewrite app_nil_r in V.
      fold values in V. fold p in V. fold q in V.
      rewrite (proj2 (parseInt_digits x y Hx Hy)) in V.
      cbn [strict_eq] in V. apply Z.eqb_eq in V.
      pose proof (mod11_digit_range (Spec.cnpj_weighted_sum values)) as Rp.
      pose proof (mod11_digit_range (Spec.cnpj_weighted_sum (values ++ [p]))) as Rq.
      fold p in Rp. fold q in Rq. unfold Spec.digit_range in *. lia. }
  intros V V'. destruct K as [p [q U]].
  destruct (U a b Ha Hb V) as [-> ->]. destruct (U a' b' Ha' Hb' V') as [-> ->].
  split; reflexivity.
Qed.

(** C3, at the input that breaks it.  "12ABC345015100" is a valid
    alphanumeric CNPJ whose check digits are 0 and 0; changing its last
    character from 0 to the letter A leaves it valid, formatted or not,
    because [parseInt] reads "0A" as 0. *)
Theorem alphanumeric_letter_check_digit_accepted :
  let d := lit "12ABC345015100" in
  Cnpj.isValid d = true
  /\ nth 13 d "0"%char = "0"%char
  /\ Spec.set_char 13 "A" d = lit "12ABC34501510A"
  /\ Cnpj.isValid (Spec.set_char 13 "A" d) = true
  /\ Cnpj.isValid (Cnpj.format (Spec.set_char 13 "A" d)) = true.
Proof. vm_compute. repeat split. Qed.

(** Any uppercase letter but X does as well as A. *)
Lemma alphanumeric_any_letter_check_digit_accepted (c : ascii) :
  is_upper c = true -> c <> "X"%char ->
  Cnpj.isValid (Spec.set_char 13 c (lit "12ABC345015100")) = true.
Proof.
  all_chars c; intros H; try discriminate H;
    intros N; try (exfalso; apply N; reflexivity); vm_compute; reflexivity.
Qed.

(** ** Further properties of the engines *)

Lemma item_of_values (items : list (Z + ascii)) :
  map Alfanumeric.numericDigit (map Aux.item_of items)
  = map Num (map Aux.mixed_val items).
Proof.
  induction items as [|x t IH]; [reflexivity|].
  cbn [map]. rewrite IH. f_equal.
  destruct x as [z|c]; [reflexivity|].
  cbn [Aux.item_of Alfanumeric.numericDigit Aux.mixed_val].
  apply convertLetterToNumber_char.
Qed.

Lemma upper_value_bound (c : ascii) :
  Z.abs (if is_upper c then Z.of_N (code c) - 48 else 0) <= 2 ^ 31.
Proof. all_chars c; vm_compute; discriminate. Qed.

Lemma gsum_bound (f : nat -> Z) (B W : Z) (l : list Z) :
  0 <= B -> 0 <= W ->
  Forall (fun z => Z.abs z <= B) l ->
  forall k, (forall i, (k <= i < k + length l)%nat -> Z.abs (f i) <= W) ->
            Z.abs (Aux.gsum f k l) <= B * W * Z.of_nat (length l).
Proof.
  intros HB HW Hl. induction Hl as [|x t Hx _ IH]; intros k Hf.
  - simpl. lia.
  - cbn [Aux.gsum length].
    assert (Hk : Z.abs (f k) <= W) by (apply Hf; simpl; lia).
    assert (Ht : Z.abs (Aux.gsum f (S k) t) <= B * W * Z.of_nat (length t))
      by (apply IH; intros i Hi; apply Hf; simpl; lia).
    assert (Hp : Z.abs (x * f k) <= B * W).
    { rewrite Z.abs_mul. apply Z.mul_le_mono_nonneg; lia. }
    pose proof (Z.abs_triangle (x * f k) (Aux.gsum f (S k) t)). nia.
Qed.

(** X1. On an array of at most 1000 integers of absolute value at most
    2^31 the weighted sums stay below 2^53 in absolute value, where the
    arithmetic of doubles is exact, and the three check-digit calculators
    return a single decimal digit: an integer from 0 to 9, never 10 and
    never [NaN]; the alphanumeric one does so on any such mix of integers
    and strings of one character. *)
Theorem check_digit_is_decimal_digit (l : list Z) (items : list (Z + ascii)) :
  Forall (fun z => Z.abs z <= 2 ^ 31) l -> (length l <= 1000)%nat ->
  Forall (fun x => match x with
                   | inl z => Z.abs z <= 2 ^ 31
                   | inr _ => True
                   end) items ->
  (length items <= 1000)%nat ->
  (Z.abs (Spec.cpf_weighted_sum l) < 2 ^ 53
   /\ exists d, Cpf.calculateCheckDigit (map Num l) = Num d /\ 0 <= d <= 9)
  /\ (Z.abs (Spec.cnpj_weighted_sum l) < 2 ^ 53
      /\ exists d, Numeric.calculateCheckDigit (map Num l) = Num d /\ 0 <= d <= 9)
  /\ (Z.abs (Spec.cnpj_weighted_sum (map Aux.mixed_val items)) < 2 ^ 53
      /\ exists d, Alfanumeric.calculateCheckDigit (map Aux.item_of items) = Num d
                   /\ 0 <= d <= 9).
Proof.
  intros Hl Hn Hi Hm.
  assert (B : forall v, Forall (fun z => Z.abs z <= 2 ^ 31) v ->
                        (length v <= 1000)%nat ->
                        Z.abs (Spec.cnpj_weighted_sum v) < 2 ^ 53).
  { intros v Hv Hlen. rewrite cnpj_weighted_sum_gsum.
    pose proof (gsum_bound Spec.cnpj_weight (2 ^ 31) 9 (rev v) ltac:(lia) ltac:(lia)
                           (List.Forall_rev Hv) 0%nat) as H.
    rewrite length_rev in H.
    assert (Hb : Z.abs (Aux.gsum Spec.cnpj_weight 0 (rev v))
                 <= 2 ^ 31 * 9 * Z.of_nat (length v)).
    { apply H. intros i _. pose proof (cnpj_weight_range i). lia. }
    assert (2 ^ 31 * 9 * Z.of_nat (length v) <= 2 ^ 31 * 9 * 1000) by nia.
    assert (2 ^ 31 * 9 * 1000 < 2 ^ 53) by reflexivity. lia. }
  split; [|split].
  - split.
    + rewrite cpf_weighted_sum_gsum.
      pose proof (gsum_bound (fun i => Z.of_nat (length l) + 1 - Z.of_nat i)
                             (2 ^ 31) 1001 l ltac:(lia) ltac:(lia) Hl 0%nat) as H.
      assert (Hb : Z.abs (Aux.gsum (fun i => Z.of_nat (length l) + 1 - Z.of_nat i) 0 l)
                   <= 2 ^ 31 * 1001 * Z.of_nat (length l)).
      { apply H. intros i Hi'. lia. }
      assert (2 ^ 31 * 1001 * Z.of_nat (length l) <= 2 ^ 31 * 1001 * 1000) by nia.
      assert (2 ^ 31 * 1001 * 1000 < 2 ^ 53) by reflexivity. lia.
    + exists (Aux.cpf_cd l).
      split; [apply cpf_calculateCheckDigit_num|apply cpf_cd_range].
  - split; [apply B; assumption|].
    exists (Aux.cnpj_cd l).
    split; [apply numeric_calculateCheckDigit_num|apply cnpj_cd_range].
  - split.
    + apply B; [|rewrite length_map; exact Hm].
      clear Hm. induction Hi as [|x t Hx _ IH]; [constructor|].
      cbn [map]. constructor; [|exact IH].
      destruct x as [z|c]; [exact Hx|apply upper_value_bound].
    + exists (Aux.cnpj_cd (map Aux.mixed_val items)).
      rewrite alfanumeric_calculateCheckDigit_numeric, item_of_values.
      split; [apply numeric_calculateCheckDigit_num|apply cnpj_cd_range].
Qed.

Lemma check_digit_is_decimal_digit_witness :
  (exists d, Cpf.calculateCheckDigit (map Num [4; 7; 2; 8; 3; 1; 0; 9; 6]) = Num d
             /\ 0 <= d <= 9)
  /\ (exists d, Alfanumeric.calculateCheckDigit
                  (map Aux.item_of [inl 2; inr "F"%char; inl 5; inr "G"%char]) = Num d
                /\ 0 <= d <= 9).
Proof.
  destruct (check_digit_is_decimal_digit
              [4; 7; 2; 8; 3; 1; 0; 9; 6]
              [inl 2; inr "F"%char; inl 5; inr "G"%char])
    as ((_ & H1) & _ & (_ & H3)).
  - repeat (constructor; [discriminate|]). constructor.
  - simpl. lia.
  - repeat (constructor; [first [discriminate | exact I]|]). constructor.
  - simpl. lia.
  - split; [exact H1|exact H3].
Defined.

(** *** The formatters *)

Lemma cpf_format_short (s : str) : (length s < 11)%nat -> Cpf.format s = s.
Proof.
  induction s as [|c t IH]; [reflexivity|]. intros H.
  cbn [Cpf.format].
  assert (E : Cpf.format_match (c :: t) = None).
  { unfold Cpf.format_match.
    do 10 (destruct t as [|? t]; [reflexivity|]). simpl in H. lia. }
  rewrite E, IH by (simpl in H; lia). reflexivity.
Qed.

Lemma cpf_format_11 (d : str) :
  length d = 11%nat -> forallb is_digit d = true ->
  Cpf.format d
  = firstn 3 d ++ lit "." ++ firstn 3 (skipn 3 d) ++ lit "."
    ++ firstn 3 (skipn 6 d) ++ lit "-" ++ skipn 9 d.
Proof.
  intros Hlen Hd.
  do 11 (destruct d as [|? d]; [discriminate Hlen|]).
  destruct d; [|discriminate Hlen].
  cbn [Cpf.format Cpf.format_match]. rewrite Hd. reflexivity.
Qed.

(** X7. On a string of eleven digits [cpf.format] returns the 14
    characters XXX.XXX.XXX-XX; cleaning the result gives the digits back,
    and formatting it again changes nothing.  A string shorter than
    eleven characters is returned as it is. *)
Theorem cpf_format_digits (d s : str) :
  length d = 11%nat -> forallb is_digit d = true ->
  Cpf.format d
  = firstn 3 d ++ lit "." ++ firstn 3 (skipn 3 d) ++ lit "."
    ++ firstn 3 (skipn 6 d) ++ lit "-" ++ skipn 9 d
  /\ length (Cpf.format d) = 14%nat
  /\ Cpf.cleanCPF (Cpf.format d) = d
  /\ Cpf.format (Cpf.format d) = Cpf.format d
  /\ ((length s < 11)%nat -> Cpf.format s = s).
Proof.
  intros Hlen Hd.
  split; [apply cpf_format_11; assumption|].
  split; [|split; [|split; [|apply cpf_format_short]]].
  - rewrite cpf_format_11 by assumption.
    do 11 (destruct d as [|? d]; [discriminate Hlen|]).
    destruct d; [reflexivity|discriminate Hlen].
  - rewrite cpf_format_clean. apply filter_all, Hd.
  - rewrite (cpf_format_11 d Hlen Hd).
    do 11 (destruct d as [|? d]; [discriminate Hlen|]).
    destruct d; [|discriminate Hlen].
    cbn [forallb] in Hd.
    repeat (apply andb_prop in Hd; destruct Hd as [? Hd]).
    cbn [firstn skipn app lit list_ascii_of_string].
    cbn [Cpf.format Cpf.format_match forallb].
    repeat match goal with
           | H : is_digit _ = true |- _ => rewrite H; clear H
           end.
    reflexivity.
Qed.

Lemma cpf_format_digits_witness :
  Cpf.format (lit "29537995593") = lit "295.379.955-93"
  /\ Cpf.format (lit "2953799") = lit "2953799".
Proof.
  destruct (cpf_format_digits (lit "29537995593") (lit "2953799"))
    as (H1 & _ & _ & _ & H2); [reflexivity|reflexivity|].
  split; [exact H1|]. apply H2. simpl. lia.
Defined.

Lemma cnpj_format_short (s : str) : (length s < 14)%nat -> Cnpj.format s = s.
Proof.
  induction s as [|c t IH]; [reflexivity|]. intros H.
  cbn [Cnpj.format].
  assert (E : Cnpj.format_match (c :: t) = None).
  { unfold Cnpj.format_match.
    do 13 (destruct t as [|? t]; [reflexivity|]). simpl in H. lia. }
  rewrite E, IH by (simpl in H; lia). reflexivity.
Qed.

Lemma alnum_plain (c : ascii) :
  is_alnum c = true ->
  is_line_terminator c = false
  /\ negb (Ascii.eqb c "." || Ascii.eqb c "/" || Ascii.eqb c "-") = true.
Proof. all_chars c; intros H; try discriminate H; split; reflexivity. Qed.

Lemma forallb_impl {A : Type} (p q : A -> bool) (l : list A) :
  (forall x, p x = true -> q x = true) ->
  forallb p l = true -> forallb q l = true.
Proof.
  intros H. induction l as [|x t IH]; [reflexivity|].
  cbn [forallb]. intros E. apply andb_prop in E. destruct E as [Ex Et].
  rewrite (H x Ex), (IH Et). reflexivity.
Qed.

Lemma cnpj_format_14 (d : str) :
  length d = 14%nat ->
  forallb (fun c => negb (is_line_terminator c)) d = true ->
  Cnpj.format d
  = firstn 2 d ++ lit "." ++ firstn 3 (skipn 2 d) ++ lit "."
    ++ firstn 3 (skipn 5 d) ++ lit "/" ++ firstn 4 (skipn 8 d)
    ++ lit "-" ++ skipn 12 d.
Proof.
  intros Hlen Hd.
  do 14 (destruct d as [|? d]; [discriminate Hlen|]).
  destruct d; [|discriminate Hlen].
  cbn [Cnpj.format Cnpj.format_match]. rewrite Hd. reflexivity.
Qed.

(** The CNPJ formatter only inserts characters that a filter [p] drops. *)
Lemma cnpj_format_filter (p : ascii -> bool) (s : str) :
  p "."%char = false -> p "/"%char = false -> p "-"%char = false ->
  List.filter p (Cnpj.format s) = List.filter p s.
Proof.
  intros Hdot Hslash Hdash.
  induction s as [|c t IH]; [reflexivity|].
  cbn [Cnpj.format]. destruct (Cnpj.format_match (c :: t)) as [r|] eqn:E.
  - revert E. generalize (c :: t). clear IH. intros s. unfold Cnpj.format_match.
    destruct s as [|a1 [|a2 [|b1 [|b2 [|b3 [|c1 [|c2 [|c3 [|d1 [|d2 [|d3 [|d4
                  [|e1 [|e2 rest]]]]]]]]]]]]]]; try discriminate.
    destruct (forallb _ _); [|discriminate].
    intros E. injection E as <-.
    cbn [app lit list_ascii_of_string List.filter].
    rewrite Hdot, Hslash, Hdash. reflexivity.
  - cbn [List.filter]. rewrite IH. reflexivity.
Qed.

(** X8. On a string of 14 letters and digits [cnpj.format] returns the
    18 characters XX.XXX.XXX/XXXX-XX; both cleanings give the 14
    characters back.  Formatting the result again does not leave it
    alone: it punctuates it a second time, into 22 characters.  A string
    shorter than 14 characters is returned as it is. *)
Theorem cnpj_format_document (d s : str) :
  length d = 14%nat -> forallb is_alnum d = true ->
  Cnpj.format d
  = firstn 2 d ++ lit "." ++ firstn 3 (skipn 2 d) ++ lit "."
    ++ firstn 3 (skipn 5 d) ++ lit "/" ++ firstn 4 (skipn 8 d)
    ++ lit "-" ++ skipn 12 d
  /\ length (Cnpj.format d) = 18%nat
  /\ List.filter is_alnum (Cnpj.format d) = d
  /\ Numeric.cleanCNPJ (Cnpj.format d) false = d
  /\ length (Cnpj.format (Cnpj.format d)) = 22%nat
  /\ List.filter is_alnum (Cnpj.format (Cnpj.format d)) = d
  /\ ((length s < 14)%nat -> Cnpj.format s = s).
Proof.
  intros Hlen Hd.
  assert (Hlt : forallb (fun c => negb (is_line_terminator c)) d = true).
  { revert Hd. apply forallb_impl. intros c Hc.
    rewrite (proj1 (alnum_plain c Hc)). reflexivity. }
  assert (Hk : forallb (fun c => negb (Ascii.eqb c "." || Ascii.eqb c "/"
                                       || Ascii.eqb c "-")) d = true).
  { revert Hd. apply forallb_impl. intros c Hc. apply alnum_plain, Hc. }
  split; [apply cnpj_format_14; assumption|].
  split; [|split; [|split; [|split; [|split; [|apply cnpj_format_short]]]]].
  - rewrite cnpj_format_14 by assumption.
    do 14 (destruct d as [|? d]; [discriminate Hlen|]).
    destruct d; [reflexivity|discriminate Hlen].
  - rewrite cnpj_format_clean. apply filter_all, Hd.
  - unfold Numeric.cleanCNPJ.
    rewrite cnpj_format_filter by reflexivity. apply filter_all, Hk.
  - rewrite (cnpj_format_14 d Hlen Hlt).
    do 14 (destruct d as [|? d]; [discriminate Hlen|]).
    destruct d; [|discriminate Hlen].
    cbn [forallb] in Hlt.
    repeat (apply andb_prop in Hlt; destruct Hlt as [? Hlt]).
    cbn [firstn skipn app lit list_ascii_of_string].
    cbn [Cnpj.format Cnpj.format_match forallb].
    repeat match goal with
           | H : negb (is_line_terminator _) = true |- _ => rewrite H; clear H
           end.
    reflexivity.
  - rewrite !cnpj_format_clean. apply filter_all, Hd.
Qed.

Lemma cnpj_format_document_witness :
  Cnpj.format (lit "12ABC34501DE35") = lit "12.ABC.345/01DE-35"
  /\ length (Cnpj.format (Cnpj.format (lit "12ABC34501DE35"))) = 22%nat
  /\ Cnpj.format (lit "12ABC345") = lit "12ABC345".
Proof.
  destruct (cnpj_format_document (lit "12ABC34501DE35") (lit "12ABC345"))
    as (H1 & _ & _ & _ & H2 & _ & H3); [reflexivity|reflexivity|].
  split; [exact H1|]. split; [exact H2|]. apply H3. simpl. lia.
Defined.

(** *** The blacklist of the CNPJ *)

Lemma numeric_validate_split (s : str) :
  Numeric.validateNumeric s
  = Numeric.isValidFormat (Numeric.cleanCNPJ s true)
    && Aux.cnpj_checksum_passes (Numeric.cleanCNPJ s true).
Proof.
  unfold Numeric.validateNumeric, Aux.cnpj_checksum_passes.
  destruct (Numeric.isValidFormat (Numeric.cleanCNPJ s true)); reflexivity.
Qed.

Lemma repeat_digits (c : ascii) (n : nat) :
  is_digit c = true -> forallb is_digit (repeat c n) = true.
Proof.
  intros H. induction n as [|n IH]; [reflexivity|].
  cbn [repeat forallb]. rewrite H, IH. reflexivity.
Qed.

(** X9. [cnpj.isValid] and [validateNumeric] reject every input whose
    letters and digits are fourteen copies of one digit.  Of these
    fourteen-digit strings only "00000000000000" passes the recomputation
    of the check digits. *)
Theorem cnpj_blacklist (s : str) (c : ascii) :
  is_digit c = true -> List.filter is_alnum s = repeat c 14 ->
  Cnpj.isValid s = false
  /\ Numeric.validateNumeric s = false
  /\ (Aux.cnpj_checksum_passes (repeat c 14) = true <-> c = "0"%char).
Proof.
  intros Hc Hs.
  assert (Hf : Numeric.validateNumeric (repeat c 14) = false).
  { rewrite numeric_validate_split. unfold Numeric.cleanCNPJ.
    rewrite (filter_all _ _ (repeat_digits c 14 Hc)).
    unfold Numeric.isValidFormat.
    rewrite (test_repeated_digit_repeat c 12 Hc), andb_false_r. reflexivity. }
  split; [|split].
  - rewrite cnpj_routes_numeric; rewrite Hs.
    + exact Hf.
    + apply repeat_length.
    + apply repeat_digits, Hc.
  - rewrite numeric_validate_split. unfold Numeric.cleanCNPJ.
    rewrite <- (filter_filter_sub is_digit is_alnum s is_digit_alnum), Hs.
    rewrite (filter_all _ _ (repeat_digits c 14 Hc)).
    unfold Numeric.isValidFormat.
    rewrite (test_repeated_digit_repeat c 12 Hc), andb_false_r. reflexivity.
  - clear Hs Hf. revert Hc.
    all_chars c; intros Hc; try discriminate Hc; vm_compute;
      split; intros H; try discriminate H; reflexivity.
Qed.

Lemma cnpj_blacklist_witness :
  Cnpj.isValid (lit "11.111.111/1111-11") = false.
Proof.
  destruct (cnpj_blacklist (lit "11.111.111/1111-11") "1"%char) as (H & _);
    [reflexivity|reflexivity|exact H].
Defined.

(** *** What the validators read of their input *)

(** X10. The validators read only the characters their cleaning keeps:
    a character that is not a digit can be inserted anywhere without
    changing the verdict of [cpf.isValid] or of [validateNumeric], and a
    character that is neither a letter nor a digit without changing that
    of [cnpj.isValid]. *)
Theorem validators_ignore_noise (s1 s2 : str) (c : ascii) :
  (is_digit c = false ->
   Cpf.isValid (s1 ++ c :: s2) = Cpf.isValid (s1 ++ s2)
   /\ Numeric.validateNumeric (s1 ++ c :: s2) = Numeric.validateNumeric (s1 ++ s2))
  /\ (is_alnum c = false ->
      Cnpj.isValid (s1 ++ c :: s2) = Cnpj.isValid (s1 ++ s2)).
Proof.
  assert (F : forall p, p c = false ->
                        List.filter p (s1 ++ c :: s2) = List.filter p (s1 ++ s2)).
  { intros p Hp. rewrite !List.filter_app. cbn [List.filter]. rewrite Hp. reflexivity. }
  split.
  - intros Hc. split.
    + rewrite !cpf_isValid_split. unfold Cpf.cleanCPF. rewrite (F _ Hc). reflexivity.
    + rewrite !numeric_validate_split. unfold Numeric.cleanCNPJ.
      rewrite (F _ Hc). reflexivity.
  - intros Hc. rewrite !cnpj_isValid_dispatch, (F _ Hc). reflexivity.
Qed.

Lemma validators_ignore_noise_witness :
  Cpf.isValid (lit "295 379" ++ "x"%char :: lit "955/93")
  = Cpf.isValid (lit "295 379" ++ lit "955/93")
  /\ Cnpj.isValid (lit "12ABC" ++ " "%char :: lit "34501DE35")
     = Cnpj.isValid (lit "12ABC" ++ lit "34501DE35").
Proof.
  split.
  - apply (validators_ignore_noise (lit "295 379") (lit "955/93") "x"%char).
    reflexivity.
  - apply (validators_ignore_noise (lit "12ABC") (lit "34501DE35") " "%char).
    reflexivity.
Defined.

(** *** The two CNPJ validators on strings of digits *)

Lemma char_value_digit_chars (l : list Z) :
  Forall Spec.digit_range l ->
  map Spec.char_value (map Spec.digit_char l) = l.
Proof.
  induction 1 as [|x t Hx _ IH]; [reflexivity|].
  cbn [map]. rewrite IH. f_equal.
  destruct (digit_char_props x Hx) as [E1 [E2 _]].
  unfold Spec.char_value. rewrite E1. exact E2.
Qed.

(** A string of [n + 2] digits, as a base of [n] digits and two more. *)
Lemma digits_split (d : str) (n : nat) :
  length d = (n + 2)%nat -> forallb is_digit d = true ->
  exists base a b,
    length base = n /\ Forall Spec.digit_range base
    /\ Spec.digit_range a /\ Spec.digit_range b
    /\ d = map Spec.digit_char (base ++ [a; b]).
Proof.
  intros Hlen Hd. destruct (digits_of_string d Hd) as [Hr Hs].
  remember (map digit_value d) as l eqn:El.
  assert (Hl : length l = (n + 2)%nat) by (rewrite El, length_map; exact Hlen).
  clear El.
  rewrite <- (firstn_skipn n l) in Hr, Hs.
  assert (Hk : length (skipn n l) = 2%nat) by (rewrite length_skipn; lia).
  remember (skipn n l) as t eqn:Et. clear Et.
  destruct t as [|a [|b [|? ?]]]; try discriminate Hk.
  apply Forall_app in Hr. destruct Hr as [Hb Ht].
  inversion Ht as [|? ? Ha Ht']; subst. inversion Ht' as [|? ? Hb2 _]; subst.
  exists (firstn n l), a, b.
  split; [rewrite length_firstn; lia|].
  split; [exact Hb|]. split; [exact Ha|]. split; [exact Hb2|]. reflexivity.
Qed.

Lemma pair_eqb (a b p q : Z) :
  Spec.digit_range a -> Spec.digit_range b ->
  Spec.digit_range p -> Spec.digit_range q ->
  (10 * a + b =? 10 * p + q) = (a =? p) && (b =? q).
Proof.
  unfold Spec.digit_range. intros Ha Hb Hp Hq.
  destruct (a =? p) eqn:E1; destruct (b =? q) eqn:E2; cbn [andb];
    rewrite ?Z.eqb_eq, ?Z.eqb_neq in *; lia.
Qed.

(** X13. On a string of fourteen digits the numeric validator is the
    alphanumeric one together with the blacklist: [validateNumeric]
    accepts exactly when [validateAlphanumeric] accepts and the string
    is not one digit repeated. *)
Theorem cnpj_validators_agree_on_digits (d : str) :
  length d = 14%nat -> forallb is_digit d = true ->
  Numeric.validateNumeric d
  = negb (test_repeated_digit d) && Alfanumeric.validateAlphanumeric d.
Proof.
  intros Hlen Hd.
  destruct (digits_split d 12 Hlen Hd) as (base & a & b & Hb & Hr & Ha & Hb2 & ->).
  rewrite numeric_validate_digits by assumption.
  rewrite (validateAlphanumeric_14 _ Hlen).
  unfold Numeric.isValidFormat, Constants.CNPJ_LENGTH. rewrite Hlen.
  cbn [Nat.eqb andb].
  rewrite map_app, firstn_app, skipn_app, length_map, Hb.
  rewrite firstn_all2, skipn_all2 by (rewrite length_map; lia).
  cbn [Nat.sub firstn skipn app map]. rewrite app_nil_r.
  rewrite (char_value_digit_chars base Hr).
  rewrite <- (cnpj_cd_spec base) by (apply digit_range_nonneg, Hr).
  rewrite <- cnpj_cd_spec.
  - rewrite (proj2 (parseInt_digits a b Ha Hb2)). cbn [strict_eq].
    rewrite pair_eqb by (try assumption; apply cnpj_cd_range).
    rewrite andb_assoc. reflexivity.
  - apply digit_range_nonneg, Forall_app. split; [exact Hr|].
    constructor; [apply cnpj_cd_range|constructor].
Qed.

Lemma cnpj_validators_agree_on_digits_witness :
  Numeric.validateNumeric (lit "54550752000155")
  = negb (test_repeated_digit (lit "54550752000155"))
    && Alfanumeric.validateAlphanumeric (lit "54550752000155").
Proof.
  apply (cnpj_validators_agree_on_digits (lit "54550752000155")); reflexivity.
Defined.

(** *** A change of a check digit *)

Lemma set_char_app (p q : str) (x c : ascii) :
  Spec.set_char (length p) c (p ++ x :: q) = p ++ c :: q
  /\ nth (length p) (p ++ x :: q) "0"%char = x.
Proof.
  unfold Spec.set_char. split.
  - rewrite firstn_app, Nat.sub_diag, firstn_all. cbn [firstn]. rewrite app_nil_r.
    f_equal. rewrite skipn_app, skipn_all2 by lia.
    replace (S (length p) - length p)%nat with 1%nat by lia. reflexivity.
  - rewrite app_nth2, Nat.sub_diag by lia. reflexivity.
Qed.

(** X5. Changing either of the last two characters of a valid CPF of
    eleven digits into any other character, digit or not, makes
    [cpf.isValid] return false. *)
Theorem cpf_check_digit_change (d : str) (i : nat) (c : ascii) :
  length d = 11%nat -> forallb is_digit d = true -> Cpf.isValid d = true ->
  i = 9%nat \/ i = 10%nat -> c <> nth i d "0"%char ->
  Cpf.isValid (Spec.set_char i c d) = false.
Proof.
  intros Hlen Hd Hv Hi Hc.
  destruct (digits_split d 9 Hlen Hd) as (base & a & b & Hb & Hr & Ha & Hb2 & ->).
  rewrite map_app in Hc |- *. cbn [map] in Hc |- *.
  assert (Hlb : length (map Spec.digit_char base) = 9%nat)
    by (rewrite length_map; exact Hb).
  assert (Hlb' : length (map Spec.digit_char base ++ [Spec.digit_char a]) = 10%nat)
    by (rewrite length_app, Hlb; reflexivity).
  assert (Hdb : forallb is_digit (map Spec.digit_char base) = true)
    by (apply (digit_string base Hr)).
  destruct (digit_char_props a Ha) as [Da _]. destruct (digit_char_props b Hb2) as [Db _].
  assert (M : Spec.set_char i c (map Spec.digit_char base
                                     ++ [Spec.digit_char a; Spec.digit_char b])
              = map Spec.digit_char base
                  ++ (if (i =? 9)%nat then [c; Spec.digit_char b]
                      else [Spec.digit_char a; c])
              /\ nth i (map Spec.digit_char base
                           ++ [Spec.digit_char a; Spec.digit_char b]) "0"%char
                 = if (i =? 9)%nat then Spec.digit_char a else Spec.digit_char b).
  { destruct Hi as [-> | ->]; cbn [Nat.eqb].
    - rewrite <- Hlb. apply set_char_app.
    - rewrite <- Hlb'.
      replace (map Spec.digit_char base ++ [Spec.digit_char a; Spec.digit_char b])
        with ((map Spec.digit_char base ++ [Spec.digit_char a]) ++ [Spec.digit_char b])
        by (rewrite <- app_assoc; reflexivity).
      destruct (set_char_app (map Spec.digit_char base ++ [Spec.digit_char a]) []
                             (Spec.digit_char b) c) as [E1 E2].
      rewrite E1, E2, <- app_assoc. split; reflexivity. }
  destruct M as [M1 M2]. rewrite M1. rewrite M2 in Hc. clear M1 M2.
  destruct (is_digit c) eqn:Ec.
  - destruct (is_digit_char c Ec) as [Re [Ee _]].
    destruct (Cpf.isValid (map Spec.digit_char base
                             ++ (if (i =? 9)%nat then [c; Spec.digit_char b]
                                 else [Spec.digit_char a; c]))) eqn:V;
      [|reflexivity].
    exfalso. apply Hc.
    destruct Hi as [-> | ->]; cbn [Nat.eqb] in *; rewrite Ee in V.
    + change [Spec.digit_char (digit_value c); Spec.digit_char b]
        with (map Spec.digit_char [digit_value c; b]) in V.
      rewrite <- map_app in V.
      destruct (cpf_check_digits_unique base a b (digit_value c) b
                  Hb Hr Ha Hb2 Re Hb2 Hv V) as [E _].
      rewrite Ee, E. reflexivity.
    + change [Spec.digit_char a; Spec.digit_char (digit_value c)]
        with (map Spec.digit_char [a; digit_value c]) in V.
      rewrite <- map_app in V.
      destruct (cpf_check_digits_unique base a b a (digit_value c)
                  Hb Hr Ha Hb2 Ha Re Hv V) as [_ E].
      rewrite Ee, E. reflexivity.
  - apply cpf_isValid_length. unfold Cpf.cleanCPF.
    rewrite List.filter_app, (filter_all _ _ Hdb), length_app, Hlb.
    destruct Hi as [-> | ->]; cbn [Nat.eqb List.filter];
      rewrite Ec, ?Da, ?Db; cbn [length]; lia.
Qed.

Lemma cpf_check_digit_change_witness :
  Cpf.isValid (Spec.set_char 10 "4" (lit "29537995593")) = false.
Proof.
  apply (cpf_check_digit_change (lit "29537995593") 10 "4"%char);
    try reflexivity; [right; reflexivity | discriminate].
Defined.

(** X6. Changing either of the two check digits of a valid CNPJ, numeric
    or alphanumeric, into another digit makes [cnpj.isValid] return
    false. *)
Theorem cnpj_check_digit_change (d : str) (i : nat) (c : ascii) :
  length d = 14%nat -> forallb is_alnum d = true ->
  forallb is_digit (skipn 12 d) = true -> Cnpj.isValid d = true ->
  i = 12%nat \/ i = 13%nat -> is_digit c = true -> c <> nth i d "0"%char ->
  Cnpj.isValid (Spec.set_char i c d) = false.
Proof.
  intros Hlen Hal Ht Hv Hi Ec Hc.
  rewrite <- (firstn_skipn 12 d) in Hal, Hv, Hc |- *.
  assert (Hlb : length (firstn 12 d) = 12%nat) by (rewrite length_firstn; lia).
  assert (Hlt : length (skipn 12 d) = 2%nat) by (rewrite length_skipn; lia).
  remember (firstn 12 d) as base eqn:Eb. remember (skipn 12 d) as t eqn:Et.
  clear Eb Et Hlen d.
  destruct t as [|x [|y [|? ?]]]; try discriminate Hlt.
  cbn [forallb] in Ht. apply andb_prop in Ht. destruct Ht as [Hx Hy].
  apply andb_prop in Hy. destruct Hy as [Hy _].
  destruct (is_digit_char x Hx) as [Rx [Ex _]].
  destruct (is_digit_char y Hy) as [Ry [Ey _]].
  destruct (is_digit_char c Ec) as [Re [Ee _]].
  rewrite forallb_app in Hal. apply andb_prop in Hal. destruct Hal as [Hal _].
  assert (M : Spec.set_char i c (base ++ [x; y])
              = base ++ (if (i =? 12)%nat then [c; y] else [x; c])
              /\ nth i (base ++ [x; y]) "0"%char = if (i =? 12)%nat then x else y).
  { destruct Hi as [-> | ->]; cbn [Nat.eqb].
    - rewrite <- Hlb. apply set_char_app.
    - assert (Hlb' : length (base ++ [x]) = 13%nat)
        by (rewrite length_app, Hlb; reflexivity).
      rewrite <- Hlb'.
      replace (base ++ [x; y]) with ((base ++ [x]) ++ [y])
        by (rewrite <- app_assoc; reflexivity).
      destruct (set_char_app (base ++ [x]) [] y c) as [E1 E2].
      rewrite E1, E2, <- app_assoc. split; reflexivity. }
  destruct M as [M1 M2]. rewrite M1. rewrite M2 in Hc. clear M1 M2.
  destruct (Cnpj.isValid (base ++ (if (i =? 12)%nat then [c; y] else [x; c]))) eqn:V;
    [|reflexivity].
  exfalso. apply Hc. rewrite Ex, Ey in Hv.
  destruct Hi as [-> | ->]; cbn [Nat.eqb] in *.
  - rewrite Ee, Ey in V.
    destruct (cnpj_check_digits_unique base _ _ _ _ Hlb Hal Rx Ry Re Ry Hv V) as [E _].
    rewrite Ee, Ex, E. reflexivity.
  - rewrite Ee, Ex in V.
    destruct (cnpj_check_digits_unique base _ _ _ _ Hlb Hal Rx Ry Rx Re Hv V) as [_ E].
    rewrite Ee, Ey, E. reflexivity.
Qed.

Lemma cnpj_check_digit_change_witness :
  Cnpj.isValid (Spec.set_char 13 "6" (lit "12ABC34501DE35")) = false.
Proof.
  apply (cnpj_check_digit_change (lit "12ABC34501DE35") 13 "6"%char);
    try reflexivity; [right; reflexivity | discriminate].
Defined.

(** *** Lowercase letters in the base *)

Lemma lower_char_value (c : ascii) : is_lower c = true -> Spec.char_value c = 0.
Proof.
  intros H. pose proof (lower_value_zero c H) as E.
  rewrite convertItem_value in E. injection E as E. exact E.
Qed.

(** X11. [cnpj.isValid] does not tell two lowercase letters apart: in an
    input of 14 letters and digits, a lowercase letter among the first
    twelve characters can be changed into any other lowercase letter
    without changing the verdict. *)
Theorem lowercase_letters_interchangeable (d : str) (i : nat) (c : ascii) :
  length d = 14%nat -> forallb is_alnum d = true -> (i < 12)%nat ->
  is_lower (nth i d "0"%char) = true -> is_lower c = true ->
  Cnpj.isValid (Spec.set_char i c d) = Cnpj.isValid d.
Proof.
  intros Hlen Hal Hi Hx Hc.
  destruct (nth_split d "0"%char (n := i)) as (p & q & E & Hp); [lia|].
  remember (nth i d "0"%char) as x eqn:Ex. clear Ex. subst d.
  rewrite <- Hp, (proj1 (set_char_app p q x c)).
  assert (R : forall y, is_lower y = true -> forallb is_alnum (p ++ y :: q) = true ->
                        Cnpj.isValid (p ++ y :: q)
                        = strict_eq (parseInt (skipn (12 - length p) (y :: q)))
                            (Num (10 * Spec.mod11_digit
                                         (Spec.cnpj_weighted_sum
                                            (map Spec.char_value p
                                               ++ 0 :: map Spec.char_value
                                                         (firstn (11 - length p) q)))
                                  + Spec.mod11_digit
                                      (Spec.cnpj_weighted_sum
                                         ((map Spec.char_value p
                                             ++ 0 :: map Spec.char_value
                                                       (firstn (11 - length p) q))
                                            ++ [Spec.mod11_digit
                                                  (Spec.cnpj_weighted_sum
                                                     (map Spec.char_value p
                                                        ++ 0 :: map Spec.char_value
                                                                  (firstn (11 - length p) q)))]))))).
  { intros y Hy Ha.
    assert (Hl : length (p ++ y :: q) = 14%nat).
    { rewrite length_app in Hlen |- *. exact Hlen. }
    rewrite cnpj_routes_alphanumeric; rewrite (filter_all _ _ Ha); try exact Hl.
    - rewrite (validateAlphanumeric_14 _ Hl).
      rewrite firstn_app, skipn_app, firstn_all2, skipn_all2 by lia.
      replace (12 - length p)%nat with (S (11 - length p)) by lia.
      cbn [firstn skipn app]. rewrite map_app. cbn [map].
      rewrite (lower_char_value y Hy). reflexivity.
    - rewrite existsb_app. cbn [existsb]. rewrite Hy. cbn [orb].
      apply orb_true_r. }
  assert (Hal' : forallb is_alnum (p ++ c :: q) = true).
  { rewrite forallb_app in Hal |- *. cbn [forallb] in Hal |- *.
    apply andb_prop in Hal. destruct Hal as [H1 H2].
    apply andb_prop in H2. destruct H2 as [_ H2].
    rewrite H1, H2, (is_lower_alnum c Hc). reflexivity. }
  rewrite (R c Hc Hal'), (R x Hx Hal).
  replace (12 - length p)%nat with (S (11 - length p)) by lia. reflexivity.
Qed.

Lemma lowercase_letters_interchangeable_witness :
  Cnpj.isValid (Spec.set_char 2 "z" (lit "12abc34501de06"))
  = Cnpj.isValid (lit "12abc34501de06").
Proof.
  apply (lowercase_letters_interchangeable (lit "12abc34501de06") 2 "z"%char);
    try reflexivity. simpl. lia.
Defined.

(** *** The schema rules *)

Lemma letterless_cleanings (v : str) :
  existsb Aux.is_letter v = false ->
  List.filter is_alnum v = List.filter is_digit v.
Proof.
  induction v as [|c t IH]; [reflexivity|].
  cbn [existsb List.filter]. intros H. apply orb_false_elim in H.
  destruct H as [Hc Ht]. rewrite (IH Ht).
  unfold is_alnum. unfold Aux.is_letter in Hc. rewrite Hc. reflexivity.
Qed.

(** X12. The two rules of the schema extension hand [null] back as it
    is; an error they raise has a message of its own; and a value without
    any letter that passes the rule [cpf] fails the rule [cnpj], with the
    error "document.cnpj". *)
Theorem document_rules (v : str) :
  Index.cpf_validate None = Index.Value None
  /\ Index.cnpj_validate None = Index.Value None
  /\ (forall value code,
        Index.cpf_validate value = Index.Error code
        \/ Index.cnpj_validate value = Index.Error code ->
        is_Some (Index.messages !! code))
  /\ (existsb Aux.is_letter v = false ->
      Index.cpf_validate (Some v) = Index.Value (Some v) ->
      Index.cnpj_validate (Some v) = Index.Error "document.cnpj").
Proof.
  split; [reflexivity|]. split; [reflexivity|]. split.
  - intros [w|] code [H|H]; cbn in H; try discriminate H.
    + destruct (Cpf.isValid w); [discriminate H|].
      injection H as <-. eexists. vm_compute. reflexivity.
    + destruct (Cnpj.isValid w); [discriminate H|].
      injection H as <-. eexists. vm_compute. reflexivity.
  - intros Hl Hv. unfold Index.cpf_validate in Hv. unfold Index.cnpj_validate.
    destruct (Cpf.isValid v) eqn:V; [|discriminate Hv].
    assert (Hlen : length (Cpf.cleanCPF v) = 11%nat).
    { destruct (Nat.eq_dec (length (Cpf.cleanCPF v)) 11%nat) as [E|E]; [exact E|].
      rewrite (cpf_isValid_length v E) in V. discriminate V. }
    rewrite cnpj_isValid_dispatch, (letterless_cleanings v Hl).
    unfold Cpf.cleanCPF in Hlen. rewrite Hlen. reflexivity.
Qed.

Lemma document_rules_witness :
  Index.cnpj_validate (Some (lit "295.379.955-93")) = Index.Error "document.cnpj".
Proof.
  destruct (document_rules (lit "295.379.955-93")) as (_ & _ & _ & H).
  apply H; reflexivity.
Defined.

(** *** The generated documents *)

Lemma generated_valid_unless_blacklisted_witness :
  let g : Rand.rng := fun _ => (75 # 100)%Q in
  Cnpj.isValid
    (Rand.run (Cnpj.generate
                 (Some {| Cnpj.type := Some Cnpj.alfanumeric;
                          Cnpj.formatted := None |})) g)
  = negb (test_repeated_digit
            (Rand.run (Cnpj.generate
                         (Some {| Cnpj.type := Some Cnpj.alfanumeric;
                                  Cnpj.formatted := None |})) g)).
Proof.
  cbv zeta.
  destruct (generated_valid_unless_blacklisted (fun _ => (75 # 100)%Q))
    as (_ & _ & _ & H).
  - intros n. split; [discriminate|reflexivity].
  - exact H.
Defined.

Lemma cpf_format_length (d : str) :
  length d = 11%nat -> forallb is_digit d = true ->
  length (Cpf.format d) = 14%nat.
Proof.
  intros Hlen Hd. rewrite cpf_format_11 by assumption.
  do 11 (destruct d as [|? d]; [discriminate Hlen|]).
  destruct d; [reflexivity|discriminate Hlen].
Qed.

Lemma cnpj_format_length (d : str) :
  length d = 14%nat -> forallb is_alnum d = true ->
  length (Cnpj.format d) = 18%nat.
Proof.
  intros Hlen Hd. rewrite cnpj_format_14.
  - do 14 (destruct d as [|? d]; [discriminate Hlen|]).
    destruct d; [reflexivity|discriminate Hlen].
  - exact Hlen.
  - revert Hd. apply forallb_impl. intros c Hc.
    rewrite (proj1 (alnum_plain c Hc)). reflexivity.
Qed.

(** X2. On every stream of unit draws [cpf.generate] returns eleven
    digits; with [formatted: true] it returns the formatting of that same
    document, 14 characters whose cleaning is the document and whose
    validity is the same; [formatted: false] and an absent [formatted]
    are as no options at all. *)
Theorem cpf_generate_document (g : Rand.rng) :
  Rand.unit_draws g ->
  let d := Rand.run (Cpf.generate None) g in
  let f := Rand.run (Cpf.generate (Some {| Cpf.formatted := Some true |})) g in
  length d = 11%nat
  /\ forallb is_digit d = true
  /\ f = Cpf.format d
  /\ length f = 14%nat
  /\ Cpf.cleanCPF f = d
  /\ Cpf.isValid f = Cpf.isValid d
  /\ Rand.run (Cpf.generate (Some {| Cpf.formatted := Some false |})) g = d
  /\ Rand.run (Cpf.generate (Some {| Cpf.formatted := None |})) g = d.
Proof.
  intros Hg d f.
  assert (Hd : length d = 11%nat /\ forallb is_digit d = true).
  { subst d. unfold Rand.run.
    destruct (cpf_generate_shape None g Hg) as [[base [Hlen [Hb ->]]] _].
    cbn [truthy mbind option_bind].
    split.
    - rewrite length_map, length_app, Hlen. reflexivity.
    - apply digit_string. apply Forall_app. split; [exact Hb|].
      constructor; [apply cpf_cd_range|]. constructor; [apply cpf_cd_range|constructor]. }
  destruct Hd as [Hlen Hdig].
  assert (Hf : f = Cpf.format d).
  { subst f d. unfold Rand.run, Cpf.generate, Rand.bind.
    destruct (Cpf.generateBaseCPF g). reflexivity. }
  split; [exact Hlen|]. split; [exact Hdig|]. split; [exact Hf|].
  rewrite Hf.
  split; [apply cpf_format_length; assumption|].
  split; [rewrite cpf_format_clean; apply filter_all, Hdig|].
  split; [apply cpf_isValid_format|].
  split; subst d; unfold Rand.run, Cpf.generate, Rand.bind;
    destruct (Cpf.generateBaseCPF g); reflexivity.
Qed.

Lemma cpf_generate_document_witness :
  Rand.run (Cpf.generate (Some {| Cpf.formatted := Some true |}))
           (fun _ => (35 # 100)%Q)
  = Cpf.format (Rand.run (Cpf.generate None) (fun _ => (35 # 100)%Q)).
Proof.
  destruct (cpf_generate_document (fun _ => (35 # 100)%Q)) as (_ & _ & H & _).
  - intros n. split; [discriminate|reflexivity].
  - exact H.
Defined.

Lemma base_items_chars (base : list Alfanumeric.item) :
  Forall Aux.base_item base ->
  forallb (fun c => is_digit c || is_upper c) (map Aux.item_char base) = true.
Proof.
  induction 1 as [|x t Hx _ IH]; [reflexivity|].
  cbn [map forallb]. rewrite IH, andb_true_r.
  destruct Hx as [[d [-> Hd]] | [c [-> Hc]]]; cbn [Aux.item_char].
  - rewrite (proj1 (digit_char_props d Hd)). reflexivity.
  - rewrite Hc. apply orb_true_r.
Qed.

(** X3. On every stream of unit draws the numeric generator returns
    fourteen digits, and the alphanumeric one fourteen characters that
    are digits or uppercase letters, the last two being digits; with
    [formatted: true] either returns the formatting of that document, 18
    characters long.  The type [numeric] is the default. *)
Theorem cnpj_generate_document (g : Rand.rng) :
  Rand.unit_draws g ->
  let options t f := Some {| Cnpj.type := t; Cnpj.formatted := f |} in
  let n := Rand.run (Cnpj.generate None) g in
  let a := Rand.run (Cnpj.generate (options (Some Cnpj.alfanumeric) None)) g in
  length n = 14%nat
  /\ forallb is_digit n = true
  /\ Rand.run (Cnpj.generate (options (Some Cnpj.numeric) None)) g = n
  /\ Rand.run (Cnpj.generate (options None (Some true))) g = Cnpj.format n
  /\ length (Cnpj.format n) = 18%nat
  /\ length a = 14%nat
  /\ forallb (fun c => is_digit c || is_upper c) a = true
  /\ forallb is_digit (skipn 12 a) = true
  /\ Rand.run (Cnpj.generate (options (Some Cnpj.alfanumeric) (Some true))) g
     = Cnpj.format a
  /\ length (Cnpj.format a) = 18%nat.
Proof.
  intros Hg options n a.
  assert (En : n = fst (Numeric.generateNumeric g)).
  { subst n. unfold Rand.run, Cnpj.generate, Rand.bind.
    cbn [mbind option_bind]. destruct (Numeric.generateNumeric g). reflexivity. }
  assert (Ea : a = fst (Alfanumeric.generateAlphanumeric g)).
  { subst a. unfold Rand.run, Cnpj.generate, Rand.bind.
    cbn [options mbind option_bind Cnpj.type Cnpj.formatted].
    destruct (Alfanumeric.generateAlphanumeric g). reflexivity. }
  assert (Hn : length n = 14%nat /\ forallb is_digit n = true).
  { rewrite En.
    destruct (numeric_generate_shape g Hg) as [[base [Hlen [Hb ->]]] _].
    split.
    - rewrite length_map, length_app, Hlen. reflexivity.
    - apply digit_string. apply Forall_app. split; [exact Hb|].
      constructor; [apply cnpj_cd_range|]. constructor; [apply cnpj_cd_range|constructor]. }
  assert (Ha : length a = 14%nat
               /\ forallb (fun c => is_digit c || is_upper c) a = true
               /\ forallb is_digit (skipn 12 a) = true).
  { rewrite Ea.
    destruct (alfanumeric_generate_shape g Hg) as [[base [Hlen [Hb E]]] _].
    cbv zeta in E. rewrite E.
    assert (Hlb : length (map Aux.item_char base) = 12%nat)
      by (rewrite length_map; exact Hlen).
    pose proof (proj1 (digit_char_props _ (cnpj_cd_range (map Aux.item_val base)))) as D1.
    pose proof (proj1 (digit_char_props _
                         (cnpj_cd_range (map Aux.item_val base
                                           ++ [Aux.cnpj_cd (map Aux.item_val base)]))))
      as D2.
    split; [rewrite length_app, Hlb; reflexivity|]. split.
    - rewrite forallb_app, (base_items_chars base Hb). cbn [forallb].
      rewrite D1, D2. reflexivity.
    - rewrite skipn_app, Hlb, skipn_all2 by lia. cbn [Nat.sub skipn app forallb].
      rewrite D1, D2. reflexivity. }
  destruct Hn as [Hn1 Hn2]. destruct Ha as [Ha1 [Ha2 Ha3]].
  assert (Hal : forall s, forallb (fun c => is_digit c || is_upper c) s = true ->
                          forallb is_alnum s = true).
  { intros s. apply forallb_impl. intros c Hc. unfold is_alnum.
    apply orb_prop in Hc. destruct Hc as [-> | ->];
      rewrite ?orb_true_r; reflexivity. }
  split; [exact Hn1|]. split; [exact Hn2|].
  split.
  { rewrite En. unfold Rand.run, Cnpj.generate, Rand.bind.
    cbn [options mbind option_bind Cnpj.type Cnpj.formatted].
    destruct (Numeric.generateNumeric g). reflexivity. }
  split.
  { rewrite En. unfold Rand.run, Cnpj.generate, Rand.bind.
    cbn [options mbind option_bind Cnpj.type Cnpj.formatted].
    destruct (Numeric.generateNumeric g). reflexivity. }
  split.
  { apply cnpj_format_length; [exact Hn1|].
    revert Hn2. apply forallb_impl, is_digit_alnum. }
  split; [exact Ha1|]. split; [exact Ha2|]. split; [exact Ha3|].
  split.
  { rewrite Ea. unfold Rand.run, Cnpj.generate, Rand.bind.
    cbn [options mbind option_bind Cnpj.type Cnpj.formatted].
    destruct (Alfanumeric.generateAlphanumeric g). reflexivity. }
  apply cnpj_format_length; [exact Ha1|]. apply Hal, Ha2.
Qed.

Lemma cnpj_generate_document_witness :
  length (Rand.run (Cnpj.generate
                      (Some {| Cnpj.type := Some Cnpj.alfanumeric;
                               Cnpj.formatted := None |}))
                   (fun _ => (75 # 100)%Q)) = 14%nat.
Proof.
  destruct (cnpj_generate_document (fun _ => (75 # 100)%Q))
    as (_ & _ & _ & _ & _ & H & _).
  - intros n. split; [discriminate|reflexivity].
  - exact H.
Defined.

(** *** The alphanumeric validator on inputs of any length *)

Lemma is_letter_alnum (c : ascii) :
  Aux.is_letter c = true -> is_alnum c = true /\ is_digit c = false.
Proof.
  intros H. split; [unfold is_alnum; unfold Aux.is_letter in H; rewrite H; reflexivity|].
  apply letter_not_digit, H.
Qed.

(** X14. [validateAlphanumeric] does not check the length of its input.
    When the length is not 14 it computes the check digits over the whole
    input, its last two characters included, and compares them with the
    integer [parseInt] reads from those two characters; so it rejects the
    empty string and every input whose last character but one is a
    letter, and it accepts "0". *)
Theorem validateAlphanumeric_any_length (s p : str) (a b : ascii) :
  let covered := if (length s =? 14)%nat then slice_to 12 s else s in
  let values := map Spec.char_value covered in
  let dv1 := Spec.mod11_digit (Spec.cnpj_weighted_sum values) in
  let dv2 := Spec.mod11_digit (Spec.cnpj_weighted_sum (values ++ [dv1])) in
  Alfanumeric.validateAlphanumeric s
  = strict_eq (parseInt (slice_last 2 s)) (Num (10 * dv1 + dv2))
  /\ Alfanumeric.validateAlphanumeric [] = false
  /\ Alfanumeric.validateAlphanumeric (lit "0") = true
  /\ (Aux.is_letter a = true ->
      Alfanumeric.validateAlphanumeric (p ++ [a; b]) = false).
Proof.
  intros covered values dv1 dv2.
  assert (G : forall t,
             Alfanumeric.validateAlphanumeric t
             = strict_eq (parseInt (slice_last 2 t))
                 (Num (10 * Spec.mod11_digit
                              (Spec.cnpj_weighted_sum
                                 (map Spec.char_value
                                      (if (length t =? 14)%nat then slice_to 12 t else t)))
                       + Spec.mod11_digit
                           (Spec.cnpj_weighted_sum
                              (map Spec.char_value
                                   (if (length t =? 14)%nat then slice_to 12 t else t)
                                 ++ [Spec.mod11_digit
                                       (Spec.cnpj_weighted_sum
                                          (map Spec.char_value
                                               (if (length t =? 14)%nat
                                                then slice_to 12 t else t)))]))))).
  { intros t. unfold Alfanumeric.validateAlphanumeric, Constants.CNPJ_LENGTH.
    rewrite convertCnpj_values, alfanumeric_check_digits_values
      by apply char_values_nonneg.
    rewrite (proj1 (parseInt_digits _ _ (mod11_digit_range _) (mod11_digit_range _))).
    reflexivity. }
  split; [apply G|]. split; [reflexivity|]. split; [vm_compute; reflexivity|].
  intros Ha. rewrite G.
  assert (E : slice_last 2 (p ++ [a; b]) = [a; b]).
  { unfold slice_last. rewrite length_app. cbn [length].
    replace (length p + 2 - 2)%nat with (length p) by lia.
    rewrite skipn_app, Nat.sub_diag, skipn_all. reflexivity. }
  destruct (is_letter_alnum a Ha) as [Hal Hd].
  rewrite E, (parseInt_pair a b Hal), Hd. reflexivity.
Qed.

Lemma validateAlphanumeric_any_length_witness :
  Alfanumeric.validateAlphanumeric (lit "12.ABC.345/01DE-" ++ ["A"; "5"]%char)
  = false.
Proof.
  destruct (validateAlphanumeric_any_length [] (lit "12.ABC.345/01DE-")
                                            "A"%char "5"%char) as (_ & _ & _ & H).
  apply H. reflexivity.
Defined.
